(** * The Spotify MCP server entry point (src/index.ts), embedded in Rocq

    The development follows the source file top to bottom:

    - [Json]: the JSON values that [JSON.parse] yields and that
      [JSON.stringify] prints, with the three error envelopes the
      request handler builds;
    - [Http]: the request handler passed to [http.createServer], written
      in a small state-and-exception monad over the response object and
      an event trace;
    - [Startup]: the module top level (tool registration) and [main]
      (transport selection, listener configuration);
    - [Carrier]: the ambient credential carrier behind
      [runWithRefreshToken], whose code lives in utils.ts. *)

From Stdlib Require Import ZArith Lia Bool Ascii String List.
From Stdlib Require Import DecimalString.
From stdpp Require Import base option strings list gmap.

Local Open Scope Z_scope.
Local Open Scope string_scope.
Local Open Scope list_scope.

(** ** JSON values *)

Module Json.

#[local] Set Warnings "-register-all".

(** What [JSON.parse] can return.  Numbers are carried as integers: the
    handler never computes on them, it only passes them on.  A string is
    a sequence of character codes below 256, an object a list of its
    members in order, one per name. *)
Inductive value : Type :=
| JNull
| JBool (b : bool)
| JNumber (n : Z)
| JString (s : string)
| JArray (items : list value)
| JObject (props : list (string * value)).

(** [key in obj] and [obj.key] for an object literal or a parsed object
    (no inherited property of [Object.prototype] is called "method",
    "id" or "toString" apart from [toString] itself, which
    [own_property] deliberately does not see). *)
Fixpoint own_property (key : string) (props : list (string * value)) : option value :=
  match props with
  | [] => None
  | (k, v) :: rest => if String.eqb k key then Some v else own_property key rest
  end.

Definition has_own_property (key : string) (props : list (string * value)) : bool :=
  match own_property key props with Some _ => true | None => false end.

(** Whether the abstract operation ToString, which a template literal
    applies to each substitution, throws a TypeError on a parsed value.
    Primitives never throw.  An array is joined, converting each element.
    A plain object is converted by OrdinaryToPrimitive with hint string:
    it calls [toString] when that is callable, else [valueOf]; an own
    "toString" property of a parsed object is a JSON value, hence not
    callable, and [Object.prototype.valueOf] (or an own, non-callable
    "valueOf") gives no primitive, so the conversion throws exactly when
    the object has an own "toString" property. *)
Fixpoint toString_throws (v : value) : bool :=
  match v with
  | JArray items => existsb toString_throws items
  | JObject props => has_own_property "toString" props
  | _ => false
  end.

(** *** JSON.stringify *)

Definition dquote : ascii := "034"%char.
Definition backslash : ascii := "092"%char.

Definition hex_digit (n : N) : ascii :=
  if (n <? 10)%N then ascii_of_N (48 + n) else ascii_of_N (87 + n).

(** QuoteJSONString on one character code. *)
Definition escape_char (c : ascii) : string :=
  let n := N_of_ascii c in
  if (n =? 34)%N then String backslash (String dquote "")
  else if (n =? 92)%N then String backslash (String backslash "")
  else if (n =? 8)%N then String backslash "b"
  else if (n =? 12)%N then String backslash "f"
  else if (n =? 10)%N then String backslash "n"
  else if (n =? 13)%N then String backslash "r"
  else if (n =? 9)%N then String backslash "t"
  else if (n <? 32)%N then
    String backslash ("u00" +:+ String (hex_digit (n / 16)) (String (hex_digit (n mod 16)) ""))
  else String c "".

Fixpoint escape_string (s : string) : string :=
  match s with
  | EmptyString => ""
  | String c rest => escape_char c +:+ escape_string rest
  end.

Definition quote (s : string) : string :=
  String dquote (escape_string s) +:+ String dquote "".

Definition number_to_string (n : Z) : string :=
  NilZero.string_of_int (Z.to_int n).

Definition join (sep : string) (parts : list string) : string :=
  match parts with
  | [] => ""
  | p :: ps => fold_left (fun acc q => acc +:+ sep +:+ q) ps p
  end.

Fixpoint stringify (v : value) : string :=
  match v with
  | JNull => "null"
  | JBool true => "true"
  | JBool false => "false"
  | JNumber n => number_to_string n
  | JString s => quote s
  | JArray items => "[" +:+ join "," (map stringify items) +:+ "]"
  | JObject props =>
      "{" +:+ join "," (map (fun kv => quote (fst kv) +:+ ":" +:+ stringify (snd kv)) props) +:+ "}"
  end.

(** The object literal of lines 59-63, 79-87 and 137-145:
    [{ jsonrpc: '2.0', error: { code, message }, id: null }]. *)
Definition error_envelope (code : Z) (message : string) : value :=
  JObject [("jsonrpc", JString "2.0");
           ("error", JObject [("code", JNumber code); ("message", JString message)]);
           ("id", JNull)].

(** The envelope section 4.5 of the specification asks for once the
    request id is known: the same object with the request's id. *)
Definition echoing_envelope (code : Z) (message : string) (id : value) : value :=
  JObject [("jsonrpc", JString "2.0");
           ("error", JObject [("code", JNumber code); ("message", JString message)]);
           ("id", id)].

Definition fields (v : value) : list (string * value) :=
  match v with
  | JObject props => props
  | _ => []
  end.

End Json.

(** ** The HTTP request handler (lines 52-149) *)

Module Http.
Import Json.

(** A value of [req.headers]: [string | string[] | undefined]. *)
Inductive header_value : Type :=
| HString (s : string)
| HArray (ss : list string)
| HUndefined.

Definition Buffer : Type := list Byte.byte.

(** Anything a [catch] clause can receive: an [Error] with its message,
    or a value that is not an instance of [Error]. *)
Inductive thrown : Type :=
| ThrownError (message : string)
| ThrownOther.

(** The request as an async iterable of chunks: it ends, yields a chunk,
    or fails (the socket was reset, the request was aborted). *)
Inductive readable : Type :=
| StreamEnd
| StreamChunk (chunk : Buffer) (rest : readable)
| StreamError (e : thrown).

(** The part of [http.IncomingMessage] the handler reads.  [headers] is
    [Object.entries(req.headers)]: the names are HTTP tokens as Node
    delivers them. *)
Record IncomingMessage : Type := mkRequest {
  url : option string;
  method : option string;
  headers : list (string * header_value);
  stream : readable }.

(** How far a response has got: nothing sent, header block sent and
    body open, or ended. *)
Inductive phase : Type :=
| Pending
| Streaming
| Ended.

(** The part of [http.ServerResponse] the handler touches. *)
Record ServerResponse : Type := mkResponse {
  progress : phase;
  statusCode : Z;
  responseHeaders : list (string * string);
  written : list string }.

(** The getters [res.headersSent] and [res.writableEnded]. *)
Definition headersSent (r : ServerResponse) : bool :=
  match progress r with Pending => false | _ => true end.

Definition writableEnded (r : ServerResponse) : bool :=
  match progress r with Ended => true | _ => false end.

Definition fresh_response : ServerResponse :=
  {| progress := Pending; statusCode := 200; responseHeaders := []; written := [] |}.

(** The object of line 69 once the loop of lines 70-72 has run: its own
    properties, and its prototype when an assignment to "__proto__" has
    put an array in the place of [Object.prototype] ([None] stands for
    [Object.prototype]).  Members inherited from the prototype are not
    own properties. *)
Record headers_object : Type := mkHeaders {
  own : gmap string header_value;
  proto : option (list string) }.

Definition empty_object : headers_object := {| own := ∅; proto := None |}.

(** What the handler prints, without the timestamps. *)
Inductive log_line : Type :=
| LogRequest (method : option string) (url tokenPreview : string)  (* line 97 *)
| LogMcpMethod (m : value)                                         (* line 114 *)
| LogCompleted                                                     (* line 127 *)
| LogHandlerError (e : thrown)                                     (* line 129 *)
| LogRequestError (e : thrown).                                    (* line 133 *)

(** What the handler itself does, in the order it does it.  What the
    transport does to the response is seen in the response only. *)
Inductive event : Type :=
| ExtractToken (headers : headers_object)
| ReadChunk (chunk : Buffer)
| HandleRequest (ambient : string) (parsedBody : option value)
| ResWriteHead (status : Z)
| ResEnd (data : string)
| Console (l : log_line).

Record world : Type := mkWorld {
  res : ServerResponse;
  trace : list event }.

Definition initial_world : world := {| res := fresh_response; trace := [] |}.

(** *** State and exceptions *)

Inductive outcome (A : Type) : Type :=
| Returned (a : A)
| Threw (e : thrown).
Arguments Returned {A} a.
Arguments Threw {A} e.

Definition M (A : Type) : Type := world -> world * outcome A.

Definition ret {A} (a : A) : M A := fun w => (w, Returned a).

Definition bind {A B} (c : M A) (k : A -> M B) : M B :=
  fun w => match c w with
           | (w', Returned a) => k a w'
           | (w', Threw e) => (w', Threw e)
           end.

Definition throw {A} (e : thrown) : M A := fun w => (w, Threw e).

(** [try { body } catch (e) { handler e }] *)
Definition try_catch {A} (body : M A) (handler : thrown -> M A) : M A :=
  fun w => match body w with
           | (w', Returned a) => (w', Returned a)
           | (w', Threw e) => handler e w'
           end.

Notation "'let*' x ':=' c1 'in' c2" := (bind c1 (fun x => c2))
  (at level 10, x name, c1 at level 100, c2 at level 200).
Notation "c1 >> c2" := (bind c1 (fun _ => c2))
  (at level 100, c2 at level 200, right associativity).

Definition emit (e : event) : M unit :=
  fun w => ({| res := res w; trace := trace w ++ [e] |}, Returned tt).

Definition console (l : log_line) : M unit := emit (Console l).

(** [res.headersSent] *)
Definition get_headersSent : M bool :=
  fun w => (w, Returned (headersSent (res w))).

(** [res.writeHead(status, headers)]: Node throws ERR_HTTP_HEADERS_SENT
    when the header block has already been written. *)
Definition writeHead (status : Z) (hs : list (string * string)) : M unit :=
  fun w =>
    let called := trace w ++ [ResWriteHead status] in
    if headersSent (res w)
    then ({| res := res w; trace := called |},
          Threw (ThrownError "Cannot write headers after they are sent to the client"))
    else ({| res := {| progress := Streaming; statusCode := status;
                       responseHeaders := hs; written := written (res w) |};
             trace := called |}, Returned tt).

(** [res.end(data)]: writes the last chunk and closes the response; a
    second [end] leaves it as it is. *)
Definition end_ (data : string) : M unit :=
  fun w =>
    let called := trace w ++ [ResEnd data] in
    if writableEnded (res w) then ({| res := res w; trace := called |}, Returned tt)
    else ({| res := {| progress := Ended; statusCode := statusCode (res w);
                       responseHeaders := responseHeaders (res w);
                       written := written (res w) ++ [data] |};
             trace := called |}, Returned tt).

(** [for await (const chunk of req) chunks.push(chunk)] (lines 104-107) *)
Fixpoint read_chunks (s : readable) (chunks : list Buffer) : M (list Buffer) :=
  match s with
  | StreamEnd => ret chunks
  | StreamChunk c rest => emit (ReadChunk c) >> read_chunks rest (chunks ++ [c])
  | StreamError e => throw e
  end.

(** The chunks a stream yields before it ends or fails, and the failure. *)
Fixpoint stream_chunks (s : readable) : list Buffer :=
  match s with
  | StreamChunk c rest => c :: stream_chunks rest
  | _ => []
  end.

Fixpoint stream_error (s : readable) : option thrown :=
  match s with
  | StreamEnd => None
  | StreamChunk _ rest => stream_error rest
  | StreamError e => Some e
  end.

(** *** Strings *)

(** [String.prototype.toLowerCase] on character codes below 256: the
    letters A-Z, and the Latin-1 capitals U+00C0-U+00DE other than the
    multiplication sign U+00D7, move up by 32; nothing else changes. *)
Definition lower_char (c : ascii) : ascii :=
  let n := N_of_ascii c in
  if (((65 <=? n) && (n <=? 90))
      || ((192 <=? n) && (n <=? 222) && negb (n =? 215)))%N
  then ascii_of_N (n + 32) else c.

Fixpoint toLowerCase (s : string) : string :=
  match s with
  | EmptyString => EmptyString
  | String c rest => String (lower_char c) (toLowerCase rest)
  end.

(** JavaScript truthiness of a [string | undefined]. *)
Definition truthy (s : option string) : bool :=
  match s with
  | Some (String _ _) => true
  | _ => false
  end.

(** [req.url || '/'] (line 55) *)
Definition request_url (req : IncomingMessage) : string :=
  match url req with
  | Some (String c rest) => String c rest
  | _ => "/"
  end.

(** The path of a request target as the specification's routing rule
    reads it, "route by path": what stands before the first "?".  The
    handler itself never takes a target apart. *)
Fixpoint pathname (target : string) : string :=
  match target with
  | EmptyString => EmptyString
  | String c rest => if Ascii.eqb c "?" then EmptyString else String c (pathname rest)
  end.

(** [headers[key] = value] (line 71).  Under every name but "__proto__"
    the assignment makes or replaces an own property: the inherited
    members it can meet are writable data properties.  "__proto__" is
    the accessor of [Object.prototype]: its setter makes an array the
    prototype of the object, ignores a string or [undefined], and makes
    no own property either way. *)
Definition assign (o : headers_object) (key : string) (value : header_value)
    : headers_object :=
  if String.eqb key "__proto__" then
    match value with
    | HArray a => {| own := own o; proto := Some a |}
    | _ => o
    end
  else {| own := <[key := value]> (own o); proto := proto o |}.

(** Lines 69-72: a fresh object, one assignment per entry. *)
Definition normalizeHeaders (entries : list (string * header_value)) : headers_object :=
  fold_left (fun hs kv => assign hs (toLowerCase (fst kv)) (snd kv)) entries empty_object.

(** Lines 93-96. *)
Definition tokenPreview (refreshToken : string) : string :=
  if (20 <? String.length refreshToken)%nat
  then substring 0 20 refreshToken +:+ "..."
  else refreshToken.


Definition json_content_type : list (string * string) :=
  [("Content-Type", "application/json")].

(** The text of an error response, character by character:
    an object with "jsonrpc", "error" (with "code" and "message") and
    "id", in that order, the id being null. *)
Definition quote_mark : string := String dquote "".

Definition envelope_text (code message : string) : string :=
  "{" +:+ quote_mark +:+ "jsonrpc" +:+ quote_mark +:+ ":" +:+ quote_mark +:+ "2.0" +:+ quote_mark +:+ ","
      +:+ quote_mark +:+ "error" +:+ quote_mark +:+ ":{"
      +:+ quote_mark +:+ "code" +:+ quote_mark +:+ ":" +:+ code +:+ ","
      +:+ quote_mark +:+ "message" +:+ quote_mark +:+ ":" +:+ quote_mark +:+ message +:+ quote_mark +:+ "},"
      +:+ quote_mark +:+ "id" +:+ quote_mark +:+ ":null}".

(** Line 142: [error instanceof Error ? error.message : 'Internal error']. *)
Definition message_of (error : thrown) : string :=
  match error with
  | ThrownError message => message
  | ThrownOther => "Internal error"
  end.

Definition nonempty (s : string) : bool :=
  match s with
  | EmptyString => false
  | String _ _ => true
  end.

Definition is_POST (m : option string) : bool :=
  match m with
  | Some s => String.eqb s "POST"
  | None => false
  end.

(** *** What index.ts imports *)

(** The collaborators of the handler that are not defined in index.ts:
    the header reader of utils.ts, two built-ins of the runtime, and the
    SDK transport the request is delegated to.  [JSON_parse] returns the
    parsed value or the SyntaxError it threw.  The transport receives
    the request, the parsed body, the ambient credential it runs under
    and the response; it returns the response as it left it and whether
    it returned or threw. *)
Class Imports : Type := {
  extractRefreshTokenFromHeaders : headers_object -> option string;
  toString_utf8 : Buffer -> string;
  JSON_parse : string -> outcome value;
  transport_handleRequest :
    IncomingMessage -> option value -> string -> ServerResponse ->
    ServerResponse * outcome unit }.

(** Modelled from the spec: [runWithRefreshToken] is defined in utils.ts,
    which is not part of index.ts.  Section 4.2: [run(credential, fn)]
    executes [fn] with [credential] bound as the ambient value, and
    returns what [fn] returns or propagates what it fails with.  The
    ambient value is passed to [fn] as its argument. *)
Definition runWithRefreshToken {A} (refreshToken : string) (fn : string -> M A) : M A :=
  fn refreshToken.

Section Handler.
Context `{Imports}.

(** [transport.handleRequest(req, res, parsedBody)] (line 125) *)
Definition handleRequest (req : IncomingMessage) (parsedBody : option value)
    (ambient : string) : M unit :=
  fun w =>
    let (r, o) := transport_handleRequest req parsedBody ambient (res w) in
    ({| res := r; trace := trace w ++ [HandleRequest ambient parsedBody] |}, o).

(** Line 74. *)
Definition extract_token (hs : headers_object) : M (option string) :=
  emit (ExtractToken hs) >> ret (extractRefreshTokenFromHeaders hs).

(** Lines 113-115: [parsedBody && typeof parsedBody === 'object' &&
    'method' in parsedBody], then the template literal converts
    [parsedBody.method] to a string. *)
Definition log_mcp_method (parsedBody : value) : M unit :=
  match parsedBody with
  | JObject props =>
      match own_property "method" props with
      | Some m =>
          if toString_throws m
          then throw (ThrownError "Cannot convert object to primitive value")
          else console (LogMcpMethod m)
      | None => ret tt
      end
  | _ => ret tt
  end.

(** Lines 102-120. *)
Definition parse_body (req : IncomingMessage) : M (option value) :=
  if is_POST (method req) then
    let* chunks := read_chunks (stream req) [] in
    let body := toString_utf8 (List.concat chunks) in
    if nonempty body then
      try_catch
        (let* parsed := (fun w => (w, JSON_parse body)) in
         log_mcp_method parsed >>
         ret (Some parsed))
        (fun _ => ret (Some (JString body)))
    else ret None
  else ret None.

(** Lines 53-131, the body of the outer [try]. *)
Definition handle (req : IncomingMessage) : M unit :=
  let url := request_url req in
  if negb (String.eqb url "/") && negb (String.eqb url "/mcp") then
    writeHead 404 json_content_type >>
    end_ (stringify (error_envelope (-32000) "Not Found"))
  else
    let* refreshToken := extract_token (normalizeHeaders (headers req)) in
    if negb (truthy refreshToken) then
      writeHead 400 json_content_type >>
      end_ (stringify (error_envelope (-32000)
              "Missing refresh token. Include Token header with the refresh token."))
    else
      let refreshToken := default "" refreshToken in
      console (LogRequest (method req) url (tokenPreview refreshToken)) >>
      let* parsedBody := parse_body req in
      try_catch
        (runWithRefreshToken refreshToken (handleRequest req parsedBody) >>
         console LogCompleted)
        (fun error => console (LogHandlerError error) >> throw error).

(** Lines 132-148, the outer [catch]. *)
Definition on_error (error : thrown) : M unit :=
  console (LogRequestError error) >>
  let* sent := get_headersSent in
  if negb sent then
    writeHead 500 json_content_type >>
    end_ (stringify (error_envelope (-32603) (message_of error)))
  else ret tt.

(** The listener given to [http.createServer] (line 52). *)
Definition requestListener (req : IncomingMessage) : M unit :=
  try_catch (handle req) on_error.

(** One request served on a fresh response. *)
Definition serve (req : IncomingMessage) : world * outcome unit :=
  requestListener req initial_world.

(** *** The body phase read off as functions *)

(** The text of line 108 when the stream does not fail. *)
Definition body_text (req : IncomingMessage) : string :=
  toString_utf8 (List.concat (stream_chunks (stream req))).

(** Whether line 114 throws on a parsed body. *)
Definition log_throws (parsed : value) : bool :=
  match parsed with
  | JObject props =>
      match own_property "method" props with
      | Some m => toString_throws m
      | None => false
      end
  | _ => false
  end.

(** What line 114 prints on a parsed body. *)
Definition method_line (parsed : value) : list event :=
  match parsed with
  | JObject props =>
      match own_property "method" props with
      | Some m => if toString_throws m then [] else [Console (LogMcpMethod m)]
      | None => []
      end
  | _ => []
  end.

(** [parsedBody] after lines 109-119, for a body text. *)
Definition payload_of (body : string) : option value :=
  if nonempty body then
    match JSON_parse body with
    | Returned parsed => if log_throws parsed then Some (JString body) else Some parsed
    | Threw _ => Some (JString body)
    end
  else None.

Definition payload_events (body : string) : list event :=
  if nonempty body then
    match JSON_parse body with
    | Returned parsed => method_line parsed
    | Threw _ => []
    end
  else [].

(** What an event in the trace of a request can be: where in the source
    each one comes from, and under what conditions it is reached. *)
Definition expected (req : IncomingMessage) (e : event) : Prop :=
  let on_route := request_url req = "/" \/ request_url req = "/mcp" in
  let credential := extractRefreshTokenFromHeaders (normalizeHeaders (headers req)) in
  match e with
  | ExtractToken hs => on_route /\ hs = normalizeHeaders (headers req)
  | ReadChunk chunk =>
      on_route /\ truthy credential = true /\
      is_POST (method req) = true /\ chunk ∈ stream_chunks (stream req)
  | HandleRequest ambient parsedBody =>
      on_route /\ credential = Some ambient /\ nonempty ambient = true /\
      if is_POST (method req)
      then stream_error (stream req) = None /\ parsedBody = payload_of (body_text req)
      else parsedBody = None
  | ResWriteHead status =>
      (status = 404 /\ ~ on_route) \/
      (status = 400 /\ on_route /\ truthy credential = false) \/
      (status = 500 /\ on_route /\ truthy credential = true)
  | ResEnd data =>
      exists code message, data = stringify (error_envelope code message)
  | Console (LogRequest m u preview) =>
      m = method req /\ u = request_url req /\
      exists token, credential = Some token /\ preview = tokenPreview token
  | Console _ => on_route /\ truthy credential = true
  end.

(** Lines 122-131 and the outer [catch] from a world [w] on: the call of
    the transport under [token] with [parsedBody], then the completion
    line, or the two error lines and the outer [catch]. *)
Definition dispatch_from (req : IncomingMessage) (token : string)
    (parsedBody : option value) (w : world) : world * outcome unit :=
  match transport_handleRequest req parsedBody token (res w) with
  | (r, Returned _) =>
      ({| res := r;
          trace := trace w ++ [HandleRequest token parsedBody; Console LogCompleted] |},
       Returned tt)
  | (r, Threw e) =>
      on_error e {| res := r;
                    trace := trace w ++ [HandleRequest token parsedBody;
                                         Console (LogHandlerError e)] |}
  end.

End Handler.

(** Kinds of events. *)
Definition is_dispatch (e : event) : bool :=
  match e with HandleRequest _ _ => true | _ => false end.

Definition is_read (e : event) : bool :=
  match e with ReadChunk _ => true | _ => false end.

Definition is_console (e : event) : bool :=
  match e with Console _ => true | _ => false end.

End Http.

(** ** The container's health check (Dockerfile, lines 43-44) *)

Module Healthcheck.
Import Http.

(** [require('http').get('http://localhost:8888/', ...)]: a GET of "/"
    with the headers the client adds, and no body. *)
Definition request (hs : list (string * header_value)) : IncomingMessage :=
  {| url := Some "/"; method := Some "GET"; headers := hs; stream := StreamEnd |}.

(** [process.exit(r.statusCode === 404 ? 0 : 1)] *)
Definition exit_code (statusCode : Z) : Z :=
  if (statusCode =? 404)%Z then 0 else 1.

End Healthcheck.

(** ** Module top level and [main] (lines 14-49, 151-167) *)

Module Startup.

(** A tool as index.ts uses it: [tool.schema] and [tool.handler] are
    handed to the SDK untouched and are left out. *)
Record ToolDefinition : Type := mkTool {
  name : string;
  description : string }.

Inductive transport_kind : Type :=
| StdioServerTransport
| StreamableHTTPServerTransport.

(** A JavaScript number as [Number.parseInt] can return it. *)
Inductive number : Type :=
| Int (n : Z)
| NaN
| PlusInfinity
| MinusInfinity.

(** The calls the program makes on the SDK server, the console, the
    HTTP module and the process, in the order it makes them. *)
Inductive call : Type :=
| server_tool (t : ToolDefinition)                  (* line 21 *)
| console_log_registered (count : nat) (names : string)  (* line 24 *)
| server_connect (t : transport_kind)               (* lines 34, 49 *)
| http_createServer                                 (* line 52 *)
| httpServer_listen (port : number) (host : string) (* line 151 *)
| console_log_listening (host : string) (port : number)  (* lines 152-155 *)
| process_exit (code : Z).                          (* lines 160, 166 *)

(** What becomes of [httpServer.listen(port, host, callback)]: the
    server starts listening and the callback runs; the call throws (Node
    refuses a port that is not an integer from 0 to 65535); or the
    server emits 'error' (the address is in use, say). *)
Inductive listen_outcome : Type :=
| Listening
| ListenThrows
| ListenFails.

(** [process.env] and [process.argv]. *)
Record process : Type := mkProcess {
  env : gmap string string;
  argv : list string }.

(** Line 19: [[...readTools, ...playTools, ...albumTools]]. *)
Definition allTools (readTools playTools albumTools : list ToolDefinition) : list ToolDefinition :=
  readTools ++ playTools ++ albumTools.

(** Modelled from the spec: [McpServer.tool] belongs to the SDK, not to
    index.ts.  Section 4.1: [register(tool)] fails if a tool with the same
    name is already registered.  [registered] holds the names registered
    so far; the result is the calls made and the registry, or [None] when
    a call threw, which ends the evaluation of the module. *)
Fixpoint register_all (tools : list ToolDefinition) (registered : list string)
    : list call * option (list string) :=
  match tools with
  | [] => ([], Some registered)
  | t :: rest =>
      if existsb (String.eqb (name t)) registered
      then ([server_tool t], None)
      else let (calls, r) := register_all rest (registered ++ [name t]) in
           (server_tool t :: calls, r)
  end.

(** Line 28. *)
Definition useStdio (p : process) : bool :=
  bool_decide (env p !! "MCP_TRANSPORT" = Some "stdio")
  || existsb (String.eqb "--stdio") (argv p).

Section Main.
(** [Number.parseInt], whether [server.connect] resolves, and what
    becomes of [httpServer.listen]. *)
Variable Number_parseInt : string -> number.
Variable connect_resolves : transport_kind -> bool.
Variable httpServer_listen_outcome : number -> string -> listen_outcome.

(** Line 39: [process.env.PORT ? Number.parseInt(process.env.PORT) : 8888]. *)
Definition port (p : process) : number :=
  match env p !! "PORT" with
  | Some (String c rest) => Number_parseInt (String c rest)
  | _ => Int 8888
  end.

(** Line 40: [process.env.HOST || '0.0.0.0']. *)
Definition host (p : process) : string :=
  match env p !! "HOST" with
  | Some (String c rest) => String c rest
  | _ => "0.0.0.0"
  end.

(** Lines 151-161 after the call of [listen], with the rejection handler
    of lines 164-167: the callback prints where the server listens; a
    [listen] that throws rejects [main()], and line 166 exits; an
    'error' event reaches the handler of line 158, and line 160 exits. *)
Definition after_listen (p : process) : list call :=
  match httpServer_listen_outcome (port p) (host p) with
  | Listening => [console_log_listening (host p) (port p)]
  | ListenThrows => [process_exit 1]
  | ListenFails => [process_exit 1]
  end.

(** Lines 26-162, with the rejection handler of line 164. *)
Definition main (p : process) : list call :=
  if useStdio p then
    server_connect StdioServerTransport ::
    (if connect_resolves StdioServerTransport then [] else [process_exit 1])
  else
    server_connect StreamableHTTPServerTransport ::
    (if connect_resolves StreamableHTTPServerTransport
     then http_createServer :: httpServer_listen (port p) (host p) :: after_listen p
     else [process_exit 1]).

(** The whole module: lines 19-24, then line 164. *)
Definition program (tools : list ToolDefinition) (p : process) : list call :=
  match register_all tools [] with
  | (calls, Some registered) =>
      calls ++ console_log_registered (length tools) (Json.join ", " (map name tools)) :: main p
  | (calls, None) => calls
  end.

End Main.

Definition is_server_tool (c : call) : bool :=
  match c with server_tool _ => true | _ => false end.

Definition is_server_connect (c : call) : bool :=
  match c with server_connect _ => true | _ => false end.

End Startup.

(** ** The credential carrier behind [runWithRefreshToken] *)

Module Carrier.

Definition Credential : Type := string.

(** What the function given to [run] does, as far as the carrier is
    concerned: it reads the ambient credential, or it suspends on I/O. *)
Inductive op : Type :=
| Current
| Await.

(** A call in flight: not yet started, suspended with the context its
    continuation captured, or finished. *)
Inductive call_state : Type :=
| NotStarted (credential : Credential) (fn : list op)
| Suspended (captured : option Credential) (continuation : list op)
| Finished.

(** Modelled from the spec: the carrier is defined in utils.ts, which is
    not part of index.ts.  Sections 4.2, 5 and 9: one execution stream
    with cooperative suspension at I/O; [run(credential, fn)] binds the
    credential as the ambient value for [fn] and everything resumed on
    its behalf; the store is re-bound at every suspension and resumption
    boundary; [current()] reads the ambient value.  [store] is that one
    ambient slot, shared by all the calls; [observed] records, for each
    [current()], the call that made it and what it returned. *)
Record machine : Type := mkMachine {
  store : option Credential;
  calls : list call_state;
  observed : list (nat * option Credential) }.

Definition bind_store (ambient : option Credential) (m : machine) : machine :=
  {| store := ambient; calls := calls m; observed := observed m |}.

(** [current()]: reads the store; the reading is recorded for call [id]. *)
Definition current (id : nat) (m : machine) : machine :=
  {| store := store m; calls := calls m;
     observed := observed m ++ [(id, store m)] |}.

(** Runs call [id] on the stream until it suspends or finishes.  A
    continuation created at a suspension captures the store as it is
    then. *)
Fixpoint run_sync (id : nat) (ops : list op) (m : machine) : machine * call_state :=
  match ops with
  | [] => (m, Finished)
  | Current :: k => run_sync id k (current id m)
  | Await :: k => (m, Suspended (store m) k)
  end.

(** [run]-style entry on the stream: bind the store, run, put the
    previous value back, record where the call stands. *)
Definition enter (id : nat) (ambient : option Credential) (ops : list op)
    (m : machine) : machine :=
  let previous := store m in
  let (m', st) := run_sync id ops (bind_store ambient m) in
  {| store := previous; calls := <[id := st]> (calls m'); observed := observed m' |}.

(** Modelled from the spec: sections 4.2 and 5, the scheduling of calls
    on one stream, which is the runtime's and not index.ts's.  The
    scheduler gives the stream to call [id]: a call that has not started
    enters [run(credential, fn)]; a suspended one is resumed under the
    context its continuation captured; a finished or unknown one leaves
    the machine as it is. *)
Definition step (m : machine) (id : nat) : machine :=
  match calls m !! id with
  | Some (NotStarted credential fn) => enter id (Some credential) fn m
  | Some (Suspended captured k) => enter id captured k m
  | Some Finished | None => m
  end.

Definition run_schedule (m : machine) (schedule : list nat) : machine :=
  fold_left step schedule m.

(** Calls that have arrived and not yet started, nothing bound. *)
Definition arrived (requests : list (Credential * list op)) : machine :=
  {| store := None;
     calls := (fun r => NotStarted (fst r) (snd r)) <$> requests;
     observed := [] |}.

(** What ties a machine to the requests it serves: nothing is bound
    between two turns, every call that is waiting holds its own
    credential, and every reading so far returned the credential of the
    call that made it. *)
Definition owns (requests : list (Credential * list op)) (id : nat)
    (ambient : option Credential) : Prop :=
  exists credential fn, requests !! id = Some (credential, fn) /\ ambient = Some credential.

Definition consistent (requests : list (Credential * list op)) (m : machine) : Prop :=
  store m = None /\
  (forall id st, calls m !! id = Some st ->
     match st with
     | NotStarted credential _ => owns requests id (Some credential)
     | Suspended captured _ => owns requests id captured
     | Finished => True
     end) /\
  (forall id v, (id, v) ∈ observed m -> owns requests id v).

End Carrier.

(** ** Concrete collaborators and requests *)

Module Sample.
Import Json Http.

(** Modelled from the spec: [extractRefreshTokenFromHeaders] is defined
    in utils.ts, which is not part of index.ts.  Section 4.4, step 2: the
    credential is read from the designated header of the normalised
    headers; the handler's own message names that header, "Token". *)
Definition token_header (hs : headers_object) : option string :=
  match own hs !! "token" with
  | Some (HString s) => Some s
  | Some (HArray (s :: _)) => Some s
  | _ => None
  end.

(** Request bodies of the examples, as the values they denote. *)
Definition tools_list : value :=
  JObject [("jsonrpc", JString "2.0"); ("id", JNumber 1); ("method", JString "tools/list")].

Definition failing_call : value :=
  JObject [("jsonrpc", JString "2.0"); ("id", JNumber 7); ("method", JString "tools/call")].

Definition late_failing_call : value :=
  JObject [("jsonrpc", JString "2.0"); ("id", JNumber 8); ("method", JString "tools/stream")].

Definition odd_method : value :=
  JObject [("method", JObject [("toString", JNumber 1)])].

Definition known_bodies : list value :=
  [tools_list; failing_call; late_failing_call; odd_method].

(** A reader of the bodies above: the value whose text the body is, a
    SyntaxError for any other text. *)
Definition parse_known (body : string) : outcome value :=
  match find (fun v => String.eqb (stringify v) body) known_bodies with
  | Some v => Returned v
  | None => Threw (ThrownError "Unexpected token in JSON")
  end.

Definition sse_started (r : ServerResponse) : ServerResponse :=
  {| progress := Streaming; statusCode := 200;
     responseHeaders := [("Content-Type", "text/event-stream")];
     written := written r |}.

Definition answered (r : ServerResponse) (data : string) : ServerResponse :=
  {| progress := Ended; statusCode := 200;
     responseHeaders := [("Content-Type", "text/event-stream")];
     written := written r ++ [data] |}.

(** A transport that answers "tools/list", fails before it writes
    anything on "tools/call", fails after the header block is out on
    "tools/stream", and answers every other payload with an error
    event. *)
Definition transport (req : IncomingMessage) (parsedBody : option value)
    (ambient : string) (r : ServerResponse) : ServerResponse * outcome unit :=
  match parsedBody with
  | Some (JObject props) =>
      match own_property "method" props with
      | Some (JString "tools/list") => (answered r "event: message", Returned tt)
      | Some (JString "tools/call") => (r, Threw (ThrownError "tool failed"))
      | Some (JString "tools/stream") => (sse_started r, Threw (ThrownError "stream failed"))
      | _ => (answered r "event: error", Returned tt)
      end
  | _ => (answered r "event: error", Returned tt)
  end.

Definition imports : Imports :=
  {| extractRefreshTokenFromHeaders := token_header;
     toString_utf8 := string_of_list_byte;
     JSON_parse := parse_known;
     transport_handleRequest := transport |}.

(** A stand-in for [Number.parseInt], right on the texts the examples
    use, which are empty or made of decimal digits: the number the
    leading digits denote, NaN when there is none. *)
Fixpoint leading_digits (s : string) (acc : option Z) : option Z :=
  match s with
  | EmptyString => acc
  | String c rest =>
      let n := Z.of_N (N_of_ascii c) in
      if ((48 <=? n)%Z && (n <=? 57)%Z)%bool
      then leading_digits rest (Some (10 * default 0%Z acc + (n - 48))%Z)
      else acc
  end.

Definition parse_digits (s : string) : Startup.number :=
  match leading_digits s None with
  | Some n => Startup.Int n
  | None => Startup.NaN
  end.

(** A stand-in for [httpServer.listen] on a free address: Node's check
    of the port, which throws unless the port is an integer from 0 to
    65535. *)
Definition listen_checked (n : Startup.number) (h : string) : Startup.listen_outcome :=
  match n with
  | Startup.Int z =>
      if ((0 <=? z)%Z && (z <=? 65535)%Z)%bool
      then Startup.Listening else Startup.ListenThrows
  | _ => Startup.ListenThrows
  end.

Definition body_of (text : string) : readable :=
  StreamChunk (list_byte_of_string text) StreamEnd.

Definition post (path : string) (hs : list (string * header_value)) (text : string) : IncomingMessage :=
  {| url := Some path; method := Some "POST"; headers := hs; stream := body_of text |}.

Definition get (path : string) (hs : list (string * header_value)) : IncomingMessage :=
  {| url := Some path; method := Some "GET"; headers := hs; stream := StreamEnd |}.

End Sample.


(** * Properties *)

(** Membership in a trace given as appended pieces, piece by piece. *)
Ltac in_trace :=
  repeat match goal with
         | Hin : _ ∈ _ ++ _ |- _ => apply elem_of_app in Hin; destruct Hin as [Hin | Hin]
         | Hin : _ ∈ _ :: _ |- _ =>
             apply elem_of_cons in Hin; destruct Hin as [Hin | Hin];
             [first [discriminate Hin | subst | idtac] | ]
         | Hin : _ ∈ [] |- _ => now apply elem_of_nil in Hin
         | Hin : _ ∈ _ <$> _ |- _ =>
             apply list_elem_of_fmap in Hin; destruct Hin as (? & -> & ?)
         end.

(** ** The monad and the response *)

Section MonadFacts.
Import Http.

(** A [catch] clause runs on what the body threw, in the world the body
    left. *)
Lemma try_catch_threw {A} (c : M A) (h : thrown -> M A) (w w' : world) (e : thrown) :
  c w = (w', Threw e) -> try_catch c h w = h e w'.
Proof. intros Hc. unfold try_catch. now rewrite Hc. Qed.

(** Reading the stream prints nothing and leaves the response alone: it
    records each chunk, and fails exactly when the stream does. *)
Lemma read_chunks_spec (s : readable) (acc : list Buffer) (w : world) :
  read_chunks s acc w =
    ({| res := res w; trace := trace w ++ (ReadChunk <$> stream_chunks s) |},
     match stream_error s with
     | None => Returned (acc ++ stream_chunks s)
     | Some e => Threw e
     end).
Proof.
  revert acc w. induction s as [|c rest IH|e]; intros acc w; cbn.
  - unfold ret. rewrite !app_nil_r. now destruct w.
  - unfold bind, emit. rewrite IH. cbn. rewrite <- !app_assoc. reflexivity.
  - unfold throw. rewrite app_nil_r. now destruct w.
Qed.

End MonadFacts.

(** ** The request handler, case by case *)

Section HandlerFacts.
Import Json Http.
Context `{Imports}.

Lemma route_check_rejects (u : string) :
  u <> "/" -> u <> "/mcp" ->
  negb (String.eqb u "/") && negb (String.eqb u "/mcp") = true.
Proof.
  intros H1 H2. apply String.eqb_neq in H1, H2. now rewrite H1, H2.
Qed.

Lemma route_check_accepts (u : string) :
  u = "/" \/ u = "/mcp" ->
  negb (String.eqb u "/") && negb (String.eqb u "/mcp") = false.
Proof. intros [-> | ->]; reflexivity. Qed.

Lemma truthy_token (t : option string) :
  truthy t = true -> exists token, t = Some token /\ nonempty token = true.
Proof.
  destruct t as [[|c rest]|]; cbn; try discriminate.
  intros _. now exists (String c rest).
Qed.

(** The body phase: nothing is read unless the method is POST; a failing
    stream fails the phase; otherwise the payload is [payload_of] the
    text. *)
Lemma parse_body_spec (req : IncomingMessage) (w : world) :
  parse_body req w =
    if is_POST (method req) then
      match stream_error (stream req) with
      | Some e =>
          ({| res := res w;
              trace := trace w ++ (ReadChunk <$> stream_chunks (stream req)) |},
           Threw e)
      | None =>
          ({| res := res w;
              trace := trace w ++ (ReadChunk <$> stream_chunks (stream req))
                         ++ payload_events (body_text req) |},
           Returned (payload_of (body_text req)))
      end
    else (w, Returned None).
Proof.
  unfold parse_body. destruct (is_POST (method req)); [|reflexivity].
  unfold bind at 1. rewrite read_chunks_spec.
  destruct (stream_error (stream req)) as [e|]; [reflexivity|].
  cbn [app]. unfold body_text, payload_of, payload_events.
  destruct (nonempty _); [|cbn; now rewrite app_nil_r].
  unfold try_catch, bind.
  destruct (JSON_parse _) as [parsed|e]; [|cbn; now rewrite app_nil_r].
  unfold log_mcp_method, log_throws, method_line.
  destruct parsed as [| | | | |props]; try (cbn; now rewrite app_nil_r).
  destruct (own_property "method" props) as [m|]; [|cbn; now rewrite app_nil_r].
  destruct (toString_throws m); cbn; [now rewrite app_nil_r|now rewrite app_assoc].
Qed.

(** A request outside the two routes: lines 56-66 and nothing else. *)
Lemma serve_other_route (req : IncomingMessage) :
  request_url req <> "/" -> request_url req <> "/mcp" ->
  serve req =
    ({| res := {| progress := Ended; statusCode := 404;
                  responseHeaders := json_content_type;
                  written := [stringify (error_envelope (-32000) "Not Found")] |};
        trace := [ResWriteHead 404;
                  ResEnd (stringify (error_envelope (-32000) "Not Found"))] |},
     Returned tt).
Proof.
  intros H1 H2. unfold serve, requestListener, try_catch, handle.
  rewrite (route_check_rejects _ H1 H2). reflexivity.
Qed.

(** A request on a route with no credential: lines 69-90 and nothing
    else. *)
Lemma serve_no_token (req : IncomingMessage) :
  request_url req = "/" \/ request_url req = "/mcp" ->
  truthy (extractRefreshTokenFromHeaders (normalizeHeaders (headers req))) = false ->
  serve req =
    ({| res := {| progress := Ended; statusCode := 400;
                  responseHeaders := json_content_type;
                  written := [stringify (error_envelope (-32000)
                    "Missing refresh token. Include Token header with the refresh token.")] |};
        trace := [ExtractToken (normalizeHeaders (headers req));
                  ResWriteHead 400;
                  ResEnd (stringify (error_envelope (-32000)
                    "Missing refresh token. Include Token header with the refresh token."))] |},
     Returned tt).
Proof.
  intros Hroute Htok. unfold serve, requestListener, try_catch, handle.
  rewrite (route_check_accepts _ Hroute).
  unfold bind at 1. unfold extract_token, bind at 1. cbn.
  rewrite Htok. reflexivity.
Qed.

(** A request on a route with a credential: the body phase, then the
    transport under that credential. *)
Lemma handle_with_token (req : IncomingMessage) (token : string) :
  request_url req = "/" \/ request_url req = "/mcp" ->
  extractRefreshTokenFromHeaders (normalizeHeaders (headers req)) = Some token ->
  nonempty token = true ->
  handle req initial_world =
    let w1 := {| res := fresh_response;
                 trace := [ExtractToken (normalizeHeaders (headers req));
                           Console (LogRequest (method req) (request_url req)
                                      (tokenPreview token))] |} in
    match parse_body req w1 with
    | (w2, Threw e) => (w2, Threw e)
    | (w2, Returned parsedBody) =>
        match transport_handleRequest req parsedBody token (res w2) with
        | (r, Returned _) =>
            ({| res := r;
                trace := trace w2 ++ [HandleRequest token parsedBody; Console LogCompleted] |},
             Returned tt)
        | (r, Threw e) =>
            ({| res := r;
                trace := trace w2 ++ [HandleRequest token parsedBody;
                                      Console (LogHandlerError e)] |},
             Threw e)
        end
    end.
Proof.
  intros Hroute Htok Hne. unfold handle.
  rewrite (route_check_accepts _ Hroute).
  unfold bind at 1. unfold extract_token, bind at 1. cbn [emit ret initial_world res trace app].
  rewrite Htok. destruct token as [|c rest]; [discriminate|]. cbn [truthy negb default].
  unfold bind at 1. cbn [console emit res trace app].
  unfold bind at 1.
  destruct (parse_body req _) as [w2 [parsedBody|e]]; [|reflexivity].
  unfold try_catch, bind, runWithRefreshToken, handleRequest.
  destruct (transport_handleRequest req parsedBody _ (res w2)) as [r [[]|e]]; cbn.
  - now rewrite <- app_assoc.
  - now rewrite <- app_assoc.
Qed.

(** The outer catch, lines 132-148. *)
Lemma on_error_spec (error : thrown) (w : world) :
  on_error error w =
    if headersSent (res w) then
      ({| res := res w; trace := trace w ++ [Console (LogRequestError error)] |},
       Returned tt)
    else
      ({| res := {| progress := Ended; statusCode := 500;
                    responseHeaders := json_content_type;
                    written := written (res w)
                      ++ [stringify (error_envelope (-32603) (message_of error))] |};
          trace := trace w ++ [Console (LogRequestError error); ResWriteHead 500;
                               ResEnd (stringify (error_envelope (-32603) (message_of error)))] |},
       Returned tt).
Proof.
  unfold on_error, bind, console, emit, get_headersSent, writeHead, end_.
  cbn [res trace]. unfold headersSent, writableEnded.
  destruct (progress (res w)) eqn:Hp; cbn [negb res trace]; rewrite ?Hp;
    cbn [negb res trace progress written statusCode responseHeaders];
    rewrite <- ?app_assoc; reflexivity.
Qed.

End HandlerFacts.

(** ** Every event of a request *)

Section TraceFacts.
Import Json Http.
Context `{Imports}.

Lemma on_route_dec (u : string) :
  (u = "/" \/ u = "/mcp") \/ (u <> "/" /\ u <> "/mcp").
Proof.
  destruct (String.eqb_spec u "/"); [tauto|].
  destruct (String.eqb_spec u "/mcp"); tauto.
Qed.

Lemma payload_events_expected (req : IncomingMessage) (body : string) (e : event) :
  (request_url req = "/" \/ request_url req = "/mcp") ->
  truthy (extractRefreshTokenFromHeaders (normalizeHeaders (headers req))) = true ->
  e ∈ payload_events body -> expected req e.
Proof.
  intros Hroute Htok. unfold payload_events, method_line.
  destruct (nonempty body); [|intros Hin; in_trace].
  destruct (JSON_parse body) as [[| | | | |props]|]; try solve [intros Hin; in_trace].
  destruct (own_property "method" props) as [m|]; [|intros Hin; in_trace].
  destruct (toString_throws m); intros Hin; in_trace. unfold expected. tauto.
Qed.

(** Each event of the trace of a request is one the source accounts for. *)
Lemma serve_events (req : IncomingMessage) (e : event) :
  e ∈ trace (serve req).1 -> expected req e.
Proof.
  destruct (on_route_dec (request_url req)) as [Hroute | [H1 H2]].
  2:{ rewrite (serve_other_route _ H1 H2). cbn [fst trace].
      intros Hin; in_trace; unfold expected.
      - left. split; [reflexivity|tauto].
      - eauto. }
  destruct (truthy (extractRefreshTokenFromHeaders (normalizeHeaders (headers req)))) eqn:Htok.
  2:{ rewrite (serve_no_token _ Hroute Htok). cbn [fst trace].
      intros Hin; in_trace; unfold expected.
      - tauto.
      - right; left. tauto.
      - eauto. }
  destruct (truthy_token _ Htok) as (token & Hextract & Hne).
  assert (Hpayload : forall e', e' ∈ payload_events (body_text req) -> expected req e').
  { intros e'. now apply payload_events_expected. }
  assert (Hwrite : expected req (ResWriteHead 500)).
  { unfold expected. right; right. tauto. }
  assert (Hend : forall code message, expected req (ResEnd (stringify (error_envelope code message)))).
  { intros code message. unfold expected. eauto. }
  assert (Hlog : forall l, (forall m u p, l <> LogRequest m u p) -> expected req (Console l)).
  { intros l Hl. unfold expected. destruct l as [m u p| | | |]; try tauto. now destruct (Hl m u p). }
  assert (Hrequest : expected req (Console (LogRequest (method req) (request_url req) (tokenPreview token)))).
  { unfold expected. eauto. }
  assert (Hextracted : expected req (ExtractToken (normalizeHeaders (headers req)))).
  { unfold expected. tauto. }
  unfold serve, requestListener, try_catch.
  rewrite (handle_with_token _ _ Hroute Hextract Hne). cbn zeta.
  rewrite parse_body_spec. cbn [res trace].
  destruct (is_POST (method req)) eqn:Hpost.
  - assert (Hchunk : forall c, c ∈ stream_chunks (stream req) -> expected req (ReadChunk c)).
    { intros c Hc. unfold expected. tauto. }
    destruct (stream_error (stream req)) as [err|] eqn:Herr.
    + rewrite on_error_spec. cbn [res trace headersSent progress fresh_response fst].
      intros Hin; in_trace; auto; apply Hlog; discriminate.
    + cbn [res].
      assert (Hcall : expected req (HandleRequest token (payload_of (body_text req)))).
      { unfold expected. rewrite Hpost. tauto. }
      destruct (transport_handleRequest req _ token fresh_response) as [r [[]|err]].
      * cbn [fst trace]. intros Hin; in_trace; auto; apply Hlog; discriminate.
      * rewrite on_error_spec. cbn [res trace].
        destruct (headersSent r); cbn [fst trace]; intros Hin; in_trace; auto;
          apply Hlog; discriminate.
  - cbn [res].
    assert (Hcall : expected req (HandleRequest token None)).
    { unfold expected. rewrite Hpost. tauto. }
    destruct (transport_handleRequest req None token fresh_response) as [r [[]|err]].
    + cbn [fst trace]. intros Hin; in_trace; auto; apply Hlog; discriminate.
    + rewrite on_error_spec. cbn [res trace].
      destruct (headersSent r); cbn [fst trace]; intros Hin; in_trace; auto;
        apply Hlog; discriminate.
Qed.

End TraceFacts.

(** ** Texts and header names *)

Section TextFacts.
Import Json Http.

Lemma string_app_assoc (a b c : string) : (a +:+ b) +:+ c = a +:+ (b +:+ c).
Proof.
  induction a as [|x a IH]; [reflexivity|].
  change (String x ((a +:+ b) +:+ c) = String x (a +:+ (b +:+ c))).
  now rewrite IH.
Qed.

(** The three envelopes print as the text of [envelope_text]. *)
Lemma stringify_envelope (code : Z) (message : string) :
  stringify (error_envelope code message) =
    envelope_text (number_to_string code) (escape_string message).
Proof.
  unfold envelope_text, error_envelope, quote_mark.
  cbn [stringify map join fold_left fst snd].
  unfold quote. rewrite !string_app_assoc. reflexivity.
Qed.

Lemma length_app (a b : string) :
  String.length (a +:+ b) = (String.length a + String.length b)%nat.
Proof.
  induction a as [|x a IH]; [reflexivity|].
  change (S (String.length (a +:+ b)) = S (String.length a + String.length b)).
  now rewrite IH.
Qed.

Lemma length_substring (n : nat) (s : string) :
  String.length (substring 0 n s) = Nat.min n (String.length s).
Proof.
  revert s. induction n as [|n IH]; intros [|x s]; cbn; try reflexivity.
  now rewrite IH.
Qed.

(** Lines 93-96 in numbers: at most twenty characters of the credential
    are kept, and three dots mark the cut. *)
Lemma tokenPreview_spec (token : string) :
  (String.length (tokenPreview token) <= 23)%nat /\
  ((String.length token <= 20)%nat -> tokenPreview token = token) /\
  ((20 < String.length token)%nat ->
     tokenPreview token = substring 0 20 token +:+ "..." /\
     String.length (tokenPreview token) = 23%nat).
Proof.
  unfold tokenPreview.
  destruct (Nat.ltb_spec 20 (String.length token)) as [Hlong | Hshort].
  - rewrite length_app, length_substring. cbn [String.length]. repeat split; try lia.
  - repeat split; try lia.
Qed.

End TextFacts.


(** ** The claims about the request handler *)

Section HandlerClaims.
Import Json Http.
Context `{Imports}.

(** On a route and with a credential, the trace opens with the
    extraction and the request line. *)
Lemma serve_opening (req : IncomingMessage) (token : string) :
  request_url req = "/" \/ request_url req = "/mcp" ->
  extractRefreshTokenFromHeaders (normalizeHeaders (headers req)) = Some token ->
  nonempty token = true ->
  exists rest,
    trace (serve req).1 =
      ExtractToken (normalizeHeaders (headers req))
      :: Console (LogRequest (method req) (request_url req) (tokenPreview token))
      :: rest.
Proof.
  intros Hroute Hextract Hne. unfold serve, requestListener, try_catch.
  rewrite (handle_with_token _ _ Hroute Hextract Hne). cbn zeta.
  rewrite parse_body_spec. cbn [res trace].
  destruct (is_POST (method req));
    [destruct (stream_error (stream req)) as [err|]|];
    rewrite ?on_error_spec; cbn [res trace headersSent progress fresh_response fst app];
    try (destruct (transport_handleRequest req _ token fresh_response) as [r [[]|err]];
         rewrite ?on_error_spec; cbn [res trace]; try destruct (headersSent r));
    cbn [fst trace app]; eexists; reflexivity.
Qed.

(** On a route, with a credential and a stream that does not fail, the
    transport is called with the payload of the body phase. *)
Lemma serve_dispatches (req : IncomingMessage) (token : string) :
  request_url req = "/" \/ request_url req = "/mcp" ->
  extractRefreshTokenFromHeaders (normalizeHeaders (headers req)) = Some token ->
  nonempty token = true ->
  (is_POST (method req) = true -> stream_error (stream req) = None) ->
  HandleRequest token
    (if is_POST (method req) then payload_of (body_text req) else None)
    ∈ trace (serve req).1.
Proof.
  intros Hroute Hextract Hne Hstream. unfold serve, requestListener, try_catch.
  rewrite (handle_with_token _ _ Hroute Hextract Hne). cbn zeta.
  rewrite parse_body_spec. cbn [res trace].
  destruct (is_POST (method req)); [rewrite Hstream by reflexivity|];
    cbn [res];
    (destruct (transport_handleRequest req _ token fresh_response) as [r [[]|err]];
     rewrite ?on_error_spec; cbn [res trace]; try destruct (headersSent r));
    cbn [fst trace]; rewrite !elem_of_app, !elem_of_cons; tauto.
Qed.


(** C3, as the code has it: the route check is on the whole request
    target, [req.url] (or "/" when it is empty), not on its path.  A
    request whose target is neither "/" nor "/mcp" is answered with
    status 404 and a JSON-RPC error body with a null id, and the handler
    does nothing else for it: the trace holds the two calls on the
    response only, so no credential is extracted, no body chunk is read
    and the transport is not called.  A request whose target is "/" or
    "/mcp" is never rejected by the route check: the handler goes on to
    extract the credential and never writes a 404 itself. *)
Theorem route_check (req : IncomingMessage) :
  (request_url req <> "/" -> request_url req <> "/mcp" ->
   serve req =
     ({| res := {| progress := Ended; statusCode := 404;
                   responseHeaders := json_content_type;
                   written := [envelope_text "-32000" "Not Found"] |};
         trace := [ResWriteHead 404; ResEnd (envelope_text "-32000" "Not Found")] |},
      Returned tt)) /\
  (request_url req = "/" \/ request_url req = "/mcp" ->
   ExtractToken (normalizeHeaders (headers req)) ∈ trace (serve req).1 /\
   ResWriteHead 404 ∉ trace (serve req).1).
Proof.
  split.
  - intros H1 H2. rewrite (serve_other_route _ H1 H2), stringify_envelope. reflexivity.
  - intros Hroute. split.
    + destruct (truthy (extractRefreshTokenFromHeaders (normalizeHeaders (headers req))))
        eqn:Htok.
      * destruct (truthy_token _ Htok) as (token & Hextract & Hne).
        destruct (serve_opening _ _ Hroute Hextract Hne) as (rest & ->).
        apply elem_of_cons. now left.
      * rewrite (serve_no_token _ Hroute Htok). cbn [fst trace].
        apply elem_of_cons. now left.
    + intros Hin. apply serve_events in Hin. unfold expected in Hin.
      destruct Hin as [[_ Hno] | [[Heq _] | [Heq _]]]; [tauto | discriminate..].
Qed.

(** The body of the outer [try] fails only for a request on a route that
    carries a credential, and only where the body is read, with the
    error of the stream and the response untouched, or where the
    transport is called, with the error the transport threw and the
    response as the transport left it.  So the 404 and the 400 answers
    never fail. *)
Lemma handle_failure_origin (req : IncomingMessage) (w : world) (error : thrown) :
  handle req initial_world = (w, Threw error) ->
  (request_url req = "/" \/ request_url req = "/mcp") /\
  exists token,
    extractRefreshTokenFromHeaders (normalizeHeaders (headers req)) = Some token /\
    nonempty token = true /\
    ((is_POST (method req) = true /\ stream_error (stream req) = Some error /\
      res w = fresh_response) \/
     (exists parsedBody,
        transport_handleRequest req parsedBody token fresh_response
          = (res w, Threw error))).
Proof.
  destruct (on_route_dec (request_url req)) as [Hroute | [H1 H2]].
  2:{ unfold handle. rewrite (route_check_rejects _ H1 H2). discriminate. }
  destruct (truthy (extractRefreshTokenFromHeaders (normalizeHeaders (headers req)))) eqn:Htok.
  2:{ unfold handle. rewrite (route_check_accepts _ Hroute).
      unfold bind at 1. unfold extract_token, bind at 1. cbn [emit ret].
      rewrite Htok. discriminate. }
  destruct (truthy_token _ Htok) as (token & Hextract & Hne).
  rewrite (handle_with_token _ _ Hroute Hextract Hne). cbn zeta.
  rewrite parse_body_spec. cbn [res trace].
  intros Hthrow. split; [assumption|]. exists token.
  split; [assumption|]. split; [assumption|]. revert Hthrow.
  destruct (is_POST (method req));
    [destruct (stream_error (stream req)) as [err|]|].
  - intros [= <- ->]. now left.
  - cbn [res].
    destruct (transport_handleRequest req _ token fresh_response) as [r [[]|err]] eqn:Hcall;
      intros [= <- <-]. right. eauto.
  - cbn [res].
    destruct (transport_handleRequest req _ token fresh_response) as [r [[]|err]] eqn:Hcall;
      intros [= <- <-]. right. eauto.
Qed.

(** C5: when the body of the outer [try] throws, which happens only in
    the body phase or in the dispatch, the handler logs the error and,
    if the header block has not been sent, answers with status 500 and a
    JSON-RPC body with code -32603 (and the error's message, or "Internal
    error" for a thrown value that is not an [Error]); if the header
    block has been sent, the response stays exactly as it was and the
    handler only logs. *)
Theorem internal_failure (req : IncomingMessage) (w : world) (error : thrown) :
  handle req initial_world = (w, Threw error) ->
  serve req =
    if headersSent (res w) then
      ({| res := res w; trace := trace w ++ [Console (LogRequestError error)] |},
       Returned tt)
    else
      ({| res := {| progress := Ended; statusCode := 500;
                    responseHeaders := json_content_type;
                    written := written (res w)
                      ++ [envelope_text "-32603" (escape_string (message_of error))] |};
          trace := trace w
                   ++ [Console (LogRequestError error); ResWriteHead 500;
                       ResEnd (envelope_text "-32603"
                                 (escape_string (message_of error)))] |},
       Returned tt).
Proof.
  intros Hthrow. unfold serve, requestListener.
  rewrite (try_catch_threw _ _ _ _ _ Hthrow), on_error_spec, stringify_envelope.
  reflexivity.
Qed.

(** C10: on a route and with a credential, the payload handed to the
    transport is undefined unless the method is POST and the body text
    is not empty.  A request that is not a POST is dispatched with an
    undefined payload and none of its body is read; a POST whose body
    text is empty is dispatched with an undefined payload, not with the
    empty string; and a payload that is defined comes from a POST with a
    non-empty body. *)
Theorem payload_undefined_unless_post_body (req : IncomingMessage) (token : string) :
  request_url req = "/" \/ request_url req = "/mcp" ->
  extractRefreshTokenFromHeaders (normalizeHeaders (headers req)) = Some token ->
  nonempty token = true ->
  (is_POST (method req) = false ->
     HandleRequest token None ∈ trace (serve req).1 /\
     forall chunk, ReadChunk chunk ∉ trace (serve req).1) /\
  (is_POST (method req) = true -> stream_error (stream req) = None ->
   body_text req = "" ->
     HandleRequest token None ∈ trace (serve req).1) /\
  (forall ambient parsedBody,
     HandleRequest ambient parsedBody ∈ trace (serve req).1 ->
     parsedBody <> None ->
     is_POST (method req) = true /\ nonempty (body_text req) = true).
Proof.
  intros Hroute Hextract Hne. split; [|split].
  - intros Hpost. split.
    + pose proof (serve_dispatches _ _ Hroute Hextract Hne) as Hd.
      rewrite Hpost in Hd. apply Hd. discriminate.
    + intros chunk Hin. apply serve_events in Hin. unfold expected in Hin.
      destruct Hin as (_ & _ & Hp & _). congruence.
  - intros Hpost Hstream Hbody.
    pose proof (serve_dispatches _ _ Hroute Hextract Hne (fun _ => Hstream)) as Hd.
    rewrite Hpost in Hd. unfold payload_of in Hd. now rewrite Hbody in Hd.
  - intros ambient parsedBody Hin Hdefined. apply serve_events in Hin.
    unfold expected in Hin. destruct Hin as (_ & _ & _ & Hp).
    destruct (is_POST (method req)); [|congruence].
    destruct Hp as [_ ->]. split; [reflexivity|].
    unfold payload_of in Hdefined. now destruct (nonempty (body_text req)).
Qed.

(** The transport runs under the credential extracted from the headers
    of the request it is given, and under no other. *)
Lemma dispatch_under_own_credential (req : IncomingMessage) (ambient : string)
    (parsedBody : option value) :
  HandleRequest ambient parsedBody ∈ trace (serve req).1 ->
  extractRefreshTokenFromHeaders (normalizeHeaders (headers req)) = Some ambient.
Proof.
  intros Hin. apply serve_events in Hin. unfold expected in Hin. tauto.
Qed.

(** What the transport is called with is what the body phase produced,
    and nothing else. *)
Lemma dispatched_payload (req : IncomingMessage) (ambient : string)
    (parsedBody : option value) :
  HandleRequest ambient parsedBody ∈ trace (serve req).1 ->
  is_POST (method req) = true ->
  parsedBody = payload_of (body_text req).
Proof.
  intros Hin Hpost. apply serve_events in Hin. unfold expected in Hin.
  destruct Hin as (_ & _ & _ & Hp). rewrite Hpost in Hp. tauto.
Qed.

(** A body that [JSON.parse] rejects goes on to the transport as its raw
    text (lines 116-118). *)
Lemma undecodable_body_passed_raw (req : IncomingMessage) (token : string) (e : thrown) :
  request_url req = "/" \/ request_url req = "/mcp" ->
  extractRefreshTokenFromHeaders (normalizeHeaders (headers req)) = Some token ->
  nonempty token = true ->
  is_POST (method req) = true -> stream_error (stream req) = None ->
  nonempty (body_text req) = true ->
  JSON_parse (body_text req) = Threw e ->
  HandleRequest token (Some (JString (body_text req))) ∈ trace (serve req).1.
Proof.
  intros Hroute Hextract Hne Hpost Hstream Hbody Hparse.
  pose proof (serve_dispatches _ _ Hroute Hextract Hne (fun _ => Hstream)) as Hd.
  rewrite Hpost in Hd. unfold payload_of in Hd. now rewrite Hbody, Hparse in Hd.
Qed.

(** A body that [JSON.parse] accepts goes on as the parsed value when
    line 114 does not throw on it. *)
Lemma decodable_body_passed_decoded (req : IncomingMessage) (token : string)
    (parsed : value) :
  request_url req = "/" \/ request_url req = "/mcp" ->
  extractRefreshTokenFromHeaders (normalizeHeaders (headers req)) = Some token ->
  nonempty token = true ->
  is_POST (method req) = true -> stream_error (stream req) = None ->
  nonempty (body_text req) = true ->
  JSON_parse (body_text req) = Returned parsed ->
  log_throws parsed = false ->
  HandleRequest token (Some parsed) ∈ trace (serve req).1.
Proof.
  intros Hroute Hextract Hne Hpost Hstream Hbody Hparse Hlog.
  pose proof (serve_dispatches _ _ Hroute Hextract Hne (fun _ => Hstream)) as Hd.
  rewrite Hpost in Hd. unfold payload_of in Hd. now rewrite Hbody, Hparse, Hlog in Hd.
Qed.

(** C4, where the code departs from it: a body that is valid JSON, an
    object whose "method" member cannot be converted to a string (it has
    a "toString" member of its own), makes the template literal of line
    114 throw inside the [try] of line 110; the [catch] of line 116 then
    replaces the parsed value by the raw text, and the transport is
    called with the text, not with the decoded value. *)
Theorem unprintable_method_passed_raw (req : IncomingMessage) (token : string)
    (props : list (string * value)) (m : value) :
  request_url req = "/" \/ request_url req = "/mcp" ->
  extractRefreshTokenFromHeaders (normalizeHeaders (headers req)) = Some token ->
  nonempty token = true ->
  is_POST (method req) = true -> stream_error (stream req) = None ->
  nonempty (body_text req) = true ->
  JSON_parse (body_text req) = Returned (JObject props) ->
  own_property "method" props = Some m ->
  toString_throws m = true ->
  HandleRequest token (Some (JString (body_text req))) ∈ trace (serve req).1 /\
  HandleRequest token (Some (JObject props)) ∉ trace (serve req).1.
Proof.
  intros Hroute Hextract Hne Hpost Hstream Hbody Hparse Hmethod Hthrows.
  assert (Hpayload : payload_of (body_text req) = Some (JString (body_text req))).
  { unfold payload_of, log_throws. now rewrite Hbody, Hparse, Hmethod, Hthrows. }
  split.
  - pose proof (serve_dispatches _ _ Hroute Hextract Hne (fun _ => Hstream)) as Hd.
    now rewrite Hpost, Hpayload in Hd.
  - intros Hin. apply dispatched_payload in Hin; [|assumption].
    rewrite Hpayload in Hin. discriminate.
Qed.

(** C6, as the code has it: whatever the handler itself passes to
    [res.end] is one of its three envelopes, and the id of each is null,
    also when the request body has been parsed and carries an id. *)
Theorem envelopes_have_null_id (req : IncomingMessage) (data : string) :
  ResEnd data ∈ trace (serve req).1 ->
  exists code message,
    data = stringify (error_envelope code message) /\
    own_property "id" (fields (error_envelope code message)) = Some JNull.
Proof.
  intros Hin. apply serve_events in Hin. unfold expected in Hin.
  destruct Hin as (code & message & ->). now exists code, message.
Qed.

(** C7, as the code has it: the request line carries [tokenPreview] of
    the extracted credential and nothing else of it; the preview is at
    most 23 characters long; it is the first twenty characters followed
    by three dots when the credential is longer than twenty characters,
    and the credential itself otherwise. *)
Theorem logged_preview_bounded (req : IncomingMessage) (m : option string)
    (u preview : string) :
  Console (LogRequest m u preview) ∈ trace (serve req).1 ->
  exists token,
    extractRefreshTokenFromHeaders (normalizeHeaders (headers req)) = Some token /\
    preview = tokenPreview token /\
    (String.length preview <= 23)%nat /\
    ((String.length token <= 20)%nat -> preview = token) /\
    ((20 < String.length token)%nat ->
       preview = substring 0 20 token +:+ "..." /\ String.length preview = 23%nat).
Proof.
  intros Hin. apply serve_events in Hin. unfold expected in Hin.
  destruct Hin as (_ & _ & token & Hextract & ->).
  exists token. split; [assumption|]. split; [reflexivity|].
  apply tokenPreview_spec.
Qed.

End HandlerClaims.


(** C3 as stated fails: the path of the target below is "/mcp", and the
    route check rejects the request all the same, because the target
    carries a query string. *)
Lemma query_string_not_routed :
  Http.pathname "/mcp?session=1" = "/mcp" /\
  @Http.serve Sample.imports
      (Sample.post "/mcp?session=1" [("Token", Http.HString "abc123")]
         (Json.stringify Sample.tools_list)) =
    ({| Http.res := {| Http.progress := Http.Ended; Http.statusCode := 404;
                       Http.responseHeaders := Http.json_content_type;
                       Http.written := [Http.envelope_text "-32000" "Not Found"] |};
        Http.trace := [Http.ResWriteHead 404;
                       Http.ResEnd (Http.envelope_text "-32000" "Not Found")] |},
     Http.Returned tt).
Proof. split; vm_compute; reflexivity. Qed.

Lemma route_check_witness :
  @Http.serve Sample.imports (Sample.get "/anything-else" []) =
    ({| Http.res := {| Http.progress := Http.Ended; Http.statusCode := 404;
                       Http.responseHeaders := Http.json_content_type;
                       Http.written := [Http.envelope_text "-32000" "Not Found"] |};
        Http.trace := [Http.ResWriteHead 404;
                       Http.ResEnd (Http.envelope_text "-32000" "Not Found")] |},
     Http.Returned tt).
Proof.
  apply (proj1 (@route_check Sample.imports (Sample.get "/anything-else" [])));
    intros Heq; vm_compute in Heq; discriminate Heq.
Defined.

(** The transport of the examples fails on "tools/call" before it has
    written anything: the client gets the 500 envelope. *)
Lemma internal_failure_witness :
  Http.res (@Http.serve Sample.imports
              (Sample.post "/mcp" [("Token", Http.HString "abc123")]
                 (Json.stringify Sample.failing_call))).1 =
    {| Http.progress := Http.Ended; Http.statusCode := 500;
       Http.responseHeaders := Http.json_content_type;
       Http.written := [Http.envelope_text "-32603" "tool failed"] |}.
Proof.
  set (req := Sample.post "/mcp" [("Token", Http.HString "abc123")]
                (Json.stringify Sample.failing_call)).
  assert (Hthrow : { w | @Http.handle Sample.imports req Http.initial_world
                           = (w, Http.Threw (Http.ThrownError "tool failed"))
                         /\ Http.res w = Http.fresh_response }).
  { eexists. split; [vm_compute; reflexivity | reflexivity]. }
  destruct Hthrow as (w & Hthrow & Hres).
  rewrite (@internal_failure Sample.imports req w _ Hthrow), Hres.
  reflexivity.
Defined.

(** Membership in the trace of a concrete request, by evaluation. *)
Ltac in_concrete_trace :=
  apply list_elem_of_In; vm_compute;
  repeat first [left; reflexivity | right].

Lemma payload_undefined_unless_post_body_witness :
  Http.HandleRequest "abc123" None
    ∈ Http.trace (@Http.serve Sample.imports
                    (Sample.get "/mcp" [("Token", Http.HString "abc123")])).1.
Proof.
  apply (proj1 (@payload_undefined_unless_post_body Sample.imports
                  (Sample.get "/mcp" [("Token", Http.HString "abc123")]) "abc123"
                  (or_intror eq_refl) eq_refl eq_refl)).
  reflexivity.
Defined.

Lemma unprintable_method_passed_raw_witness :
  Http.HandleRequest "abc123"
      (Some (Json.JString (Json.stringify Sample.odd_method)))
    ∈ Http.trace (@Http.serve Sample.imports
                    (Sample.post "/mcp" [("Token", Http.HString "abc123")]
                       (Json.stringify Sample.odd_method))).1.
Proof.
  apply (proj1 (@unprintable_method_passed_raw Sample.imports
                  (Sample.post "/mcp" [("Token", Http.HString "abc123")]
                     (Json.stringify Sample.odd_method))
                  "abc123" (Json.fields Sample.odd_method)
                  (Json.JObject [("toString", Json.JNumber 1)])
                  (or_intror eq_refl) eq_refl eq_refl eq_refl eq_refl eq_refl
                  eq_refl eq_refl eq_refl)).
Defined.

Lemma envelopes_have_null_id_witness :
  exists code message,
    Json.stringify (Json.error_envelope (-32603) "tool failed")
      = Json.stringify (Json.error_envelope code message) /\
    Json.own_property "id" (Json.fields (Json.error_envelope code message))
      = Some Json.JNull.
Proof.
  apply (@envelopes_have_null_id Sample.imports
           (Sample.post "/mcp" [("Token", Http.HString "abc123")]
              (Json.stringify Sample.failing_call))).
  in_concrete_trace.
Defined.

Lemma logged_preview_bounded_witness :
  exists token,
    Sample.token_header
      (Http.normalizeHeaders [("Token", Http.HString "0123456789abcdefghijKLMNOP")])
      = Some token /\
    "0123456789abcdefghij..." = Http.tokenPreview token /\
    (String.length "0123456789abcdefghij..." <= 23)%nat /\
    ((String.length token <= 20)%nat -> "0123456789abcdefghij..." = token) /\
    ((20 < String.length token)%nat ->
       "0123456789abcdefghij..." = substring 0 20 token +:+ "..." /\
       String.length "0123456789abcdefghij..." = 23%nat).
Proof.
  apply (@logged_preview_bounded Sample.imports
           (Sample.get "/" [("Token", Http.HString "0123456789abcdefghijKLMNOP")])
           (Some "GET") "/").
  in_concrete_trace.
Defined.

(** C6 as stated fails: the request below is parsed, carries the id 7
    and reaches the transport, which throws before it has written
    anything; the envelope the handler then writes has a null id, not
    7. *)
Lemma request_id_not_echoed :
  Http.HandleRequest "abc123" (Some Sample.failing_call)
    ∈ Http.trace (@Http.serve Sample.imports
                    (Sample.post "/mcp" [("Token", Http.HString "abc123")]
                       (Json.stringify Sample.failing_call))).1 /\
  Json.own_property "id" (Json.fields Sample.failing_call) = Some (Json.JNumber 7) /\
  Http.written (Http.res (@Http.serve Sample.imports
                    (Sample.post "/mcp" [("Token", Http.HString "abc123")]
                       (Json.stringify Sample.failing_call))).1)
    = [Json.stringify (Json.error_envelope (-32603) "tool failed")] /\
  Json.stringify (Json.error_envelope (-32603) "tool failed")
    <> Json.stringify (Json.echoing_envelope (-32603) "tool failed" (Json.JNumber 7)).
Proof.
  split; [in_concrete_trace|]. split; [reflexivity|]. split; [vm_compute; reflexivity|].
  intros Heq. apply String.eqb_eq in Heq. vm_compute in Heq. discriminate Heq.
Qed.

(** C7 as stated fails: a credential of six characters is printed in
    full on the request line. *)
Lemma short_credential_logged_in_full :
  Sample.token_header (Http.normalizeHeaders [("Token", Http.HString "abc123")])
    = Some "abc123" /\
  Http.Console (Http.LogRequest (Some "GET") "/mcp" "abc123")
    ∈ Http.trace (@Http.serve Sample.imports
                    (Sample.get "/mcp" [("Token", Http.HString "abc123")])).1.
Proof.
  split; [vm_compute; reflexivity | in_concrete_trace].
Qed.

(** ** Start-up: registration, transport, listener *)

Lemma filter_all {A} (P : A -> Prop) `{!forall x, Decision (P x)} (l : list A) :
  Forall P l -> filter P l = l.
Proof.
  induction 1 as [|x l Hx _ IH]; [reflexivity|].
  now rewrite filter_cons_True, IH.
Qed.

Lemma filter_none {A} (P : A -> Prop) `{!forall x, Decision (P x)} (l : list A) :
  Forall (fun x => ~ P x) l -> filter P l = [].
Proof.
  induction 1 as [|x l Hx _ IH]; [reflexivity|].
  now rewrite filter_cons_False.
Qed.

Section StartupFacts.
Import Startup.
Variable Number_parseInt : string -> number.
Variable connect_resolves : transport_kind -> bool.
Variable httpServer_listen_outcome : number -> string -> listen_outcome.

Lemma registered_before (t : ToolDefinition) (registered : list string) :
  existsb (String.eqb (name t)) registered = false <-> name t ∉ registered.
Proof.
  rewrite <- not_true_iff_false, existsb_exists, list_elem_of_In.
  split; intros Hno Hin; apply Hno.
  - exists (name t). split; [assumption | apply String.eqb_refl].
  - destruct Hin as (x & Hx & Heq). apply String.eqb_eq in Heq. now subst x.
Qed.

(** The calls of the registration loop are [server.tool] calls on a
    prefix of the tools, in order, each tool once. *)
Lemma register_all_calls (tools : list ToolDefinition) (registered : list string) :
  exists n, (register_all tools registered).1 = server_tool <$> take n tools.
Proof.
  revert registered. induction tools as [|t tools IH]; intros registered; cbn [register_all].
  - now exists 0%nat.
  - destruct (existsb _ registered).
    + now exists 1%nat.
    + destruct (IH (registered ++ [name t])) as (n & Hn).
      destruct (register_all tools (registered ++ [name t])) as [calls r].
      exists (S n). cbn [fst] in *. now rewrite Hn.
Qed.

(** With no name used twice the loop registers every tool. *)
Lemma register_all_nodup (tools : list ToolDefinition) (registered : list string) :
  NoDup (registered ++ (name <$> tools)) ->
  register_all tools registered =
    (server_tool <$> tools, Some (registered ++ (name <$> tools))).
Proof.
  revert registered. induction tools as [|t tools IH]; intros registered Hnd;
    cbn [register_all fmap list_fmap].
  - now rewrite app_nil_r.
  - assert (Hfresh : name t ∉ registered).
    { apply NoDup_app in Hnd as (_ & Hdisj & _). intros Hin.
      apply (Hdisj _ Hin). cbn. apply elem_of_cons. now left. }
    apply registered_before in Hfresh. rewrite Hfresh.
    rewrite IH; [|now rewrite <- app_assoc].
    cbn. now rewrite <- app_assoc.
Qed.

Lemma main_has_no_server_tool (p : process) :
  Forall (fun c => is_server_tool c = false) (main Number_parseInt connect_resolves httpServer_listen_outcome p).
Proof.
  unfold main, after_listen.
  destruct (useStdio p), (connect_resolves _);
    try destruct (httpServer_listen_outcome _ _); repeat constructor.
Qed.

(** The program is a run of [server.tool] calls followed by calls that
    are not. *)
Lemma program_split (tools : list ToolDefinition) (p : process) :
  exists registrations rest,
    program Number_parseInt connect_resolves httpServer_listen_outcome tools p = registrations ++ rest /\
    Forall (fun c => is_server_tool c = true) registrations /\
    Forall (fun c => is_server_tool c = false) rest /\
    exists n, registrations = server_tool <$> take n tools.
Proof.
  unfold program.
  destruct (register_all_calls tools []) as (n & Hn).
  destruct (register_all tools []) as [calls [registered|]]; cbn [fst] in Hn; subst calls.
  - eexists _, _. split; [reflexivity|]. split; [|split; [|now exists n]].
    + apply Forall_fmap, Forall_forall. now intros.
    + constructor; [reflexivity | apply main_has_no_server_tool].
  - exists (server_tool <$> take n tools), []. rewrite app_nil_r.
    split; [reflexivity|]. split; [|split; [constructor | now exists n]].
    apply Forall_fmap, Forall_forall. now intros.
Qed.

(** C8: in every execution every [server.tool] call comes before every
    [server.connect] call, whatever the tools, the environment and the
    arguments are; the [server.tool] calls are made on the tools of
    [allTools] in order, each at most once, and on all of them when no
    name is used twice; and at most one transport is connected. *)
Theorem registration_precedes_connect (tools : list ToolDefinition) (p : process) :
  (forall i j t k,
     program Number_parseInt connect_resolves httpServer_listen_outcome tools p !! i = Some (server_tool t) ->
     program Number_parseInt connect_resolves httpServer_listen_outcome tools p !! j = Some (server_connect k) ->
     (i < j)%nat) /\
  (exists n,
     filter (fun c => is_server_tool c = true)
       (program Number_parseInt connect_resolves httpServer_listen_outcome tools p) = server_tool <$> take n tools /\
     (NoDup (name <$> tools) -> n = length tools)) /\
  (length (filter (fun c => is_server_connect c = true)
             (program Number_parseInt connect_resolves httpServer_listen_outcome tools p)) <= 1)%nat.
Proof.
  split; [|split].
  - destruct (program_split tools p) as (regs & rest & -> & Hregs & Hrest & _).
    intros i j t k Hi Hj.
    assert (Hilt : (i < length regs)%nat).
    { destruct (Nat.lt_ge_cases i (length regs)) as [|Hge]; [assumption|].
      rewrite lookup_app_r in Hi by assumption.
      apply list_elem_of_lookup_2 in Hi.
      rewrite Forall_forall in Hrest. now apply Hrest in Hi. }
    assert (Hjge : (length regs <= j)%nat).
    { destruct (Nat.lt_ge_cases j (length regs)) as [Hlt|]; [|assumption].
      rewrite lookup_app_l in Hj by assumption.
      apply list_elem_of_lookup_2 in Hj.
      rewrite Forall_forall in Hregs. now apply Hregs in Hj. }
    lia.
  - destruct (program_split tools p) as (regs & rest & Hprog & Hregs & Hrest & n & Hn).
    destruct (decide (NoDup (name <$> tools))) as [Hnd | Hdup].
    + exists (length tools). split; [|reflexivity].
      unfold program. rewrite (register_all_nodup tools [] Hnd).
      rewrite filter_app, firstn_all, filter_cons_False by discriminate.
      rewrite (filter_none _ (main Number_parseInt connect_resolves httpServer_listen_outcome p)).
      * rewrite app_nil_r. apply filter_all.
        apply Forall_fmap, Forall_forall. now intros.
      * eapply Forall_impl; [apply main_has_no_server_tool|]. cbn. congruence.
    + exists n. split; [|tauto].
      rewrite Hprog, filter_app.
      rewrite (filter_none _ rest).
      * rewrite app_nil_r, Hn. apply filter_all.
        apply Forall_fmap, Forall_forall. now intros.
      * eapply Forall_impl; [exact Hrest|]. cbn. congruence.
  - unfold program.
    destruct (register_all_calls tools []) as (n & Hn).
    destruct (register_all tools []) as [calls [registered|]]; cbn [fst] in Hn; subst calls.
    + rewrite filter_app, filter_cons_False by discriminate.
      rewrite (filter_none _ (server_tool <$> take n tools)).
      * unfold main, after_listen.
        destruct (useStdio p), (connect_resolves _);
          try destruct (httpServer_listen_outcome _ _); vm_compute; lia.
      * apply Forall_fmap, Forall_forall. cbn. intros; discriminate.
    + rewrite (filter_none _ (server_tool <$> take n tools)).
      * cbn; lia.
      * apply Forall_fmap, Forall_forall. cbn. intros; discriminate.
Qed.

(** C9, as the code has it: the stdio transport is selected exactly
    when MCP_TRANSPORT is "stdio" or "--stdio" is among the arguments,
    and then nothing listens; otherwise, once the transport is
    connected, [httpServer.listen] is called with [port] and [host],
    where the port is [Number.parseInt] of PORT, or 8888 when PORT is
    unset or empty, and the host is HOST, or "0.0.0.0" when HOST is
    unset or empty.  The listener is bound only when that call goes
    well: then the callback prints the address; when [listen] throws or
    the server emits 'error', the process exits with code 1 and nothing
    listens. *)
Theorem transport_and_listener (p : process) :
  (useStdio p = true <->
     env p !! "MCP_TRANSPORT" = Some "stdio" \/ "--stdio" ∈ argv p) /\
  (useStdio p = true ->
     head (main Number_parseInt connect_resolves httpServer_listen_outcome p)
       = Some (server_connect StdioServerTransport) /\
     forall n h,
       httpServer_listen n h ∉ main Number_parseInt connect_resolves httpServer_listen_outcome p) /\
  (useStdio p = false -> connect_resolves StreamableHTTPServerTransport = true ->
     main Number_parseInt connect_resolves httpServer_listen_outcome p =
       [server_connect StreamableHTTPServerTransport; http_createServer;
        httpServer_listen (port Number_parseInt p) (host p)]
       ++ (match httpServer_listen_outcome (port Number_parseInt p) (host p) with
           | Listening => [console_log_listening (host p) (port Number_parseInt p)]
           | ListenThrows | ListenFails => [process_exit 1]
           end)) /\
  (useStdio p = false -> connect_resolves StreamableHTTPServerTransport = false ->
     main Number_parseInt connect_resolves httpServer_listen_outcome p =
       [server_connect StreamableHTTPServerTransport; process_exit 1]) /\
  (env p !! "PORT" = None \/ env p !! "PORT" = Some "" ->
     port Number_parseInt p = Int 8888) /\
  (forall text, env p !! "PORT" = Some text -> text <> "" ->
     port Number_parseInt p = Number_parseInt text) /\
  (env p !! "HOST" = None \/ env p !! "HOST" = Some "" -> host p = "0.0.0.0") /\
  (forall h, env p !! "HOST" = Some h -> h <> "" -> host p = h).
Proof.
  split; [|split; [|split; [|split; [|split; [|split; [|split]]]]]].
  - unfold useStdio. rewrite orb_true_iff, bool_decide_eq_true, existsb_exists.
    apply or_iff_compat_l. split.
    + intros (x & Hin & Heq). apply String.eqb_eq in Heq. subst x.
      now apply list_elem_of_In.
    + intros Hin. exists "--stdio". split; [now apply list_elem_of_In | reflexivity].
  - unfold main. intros ->. split; [reflexivity|]. intros n h Hin.
    destruct (connect_resolves _); in_trace.
  - unfold main, after_listen. intros -> ->.
    now destruct (httpServer_listen_outcome _ _).
  - unfold main. now intros -> ->.
  - unfold port. now intros [-> | ->].
  - unfold port. intros text -> Hne. now destruct text.
  - unfold host. now intros [-> | ->].
  - unfold host. intros h -> Hne. now destruct h.
Qed.

End StartupFacts.

Lemma registration_precedes_connect_witness :
  Startup.program Sample.parse_digits (fun _ => true) Sample.listen_checked
      (Startup.allTools [Startup.mkTool "getNowPlaying" "reads"]
         [Startup.mkTool "playMusic" "plays"] [])
      (Startup.mkProcess ∅ ["node"; "build/index.js"]) !! 1%nat
    = Some (Startup.server_tool (Startup.mkTool "playMusic" "plays")) /\
  Startup.program Sample.parse_digits (fun _ => true) Sample.listen_checked
      (Startup.allTools [Startup.mkTool "getNowPlaying" "reads"]
         [Startup.mkTool "playMusic" "plays"] [])
      (Startup.mkProcess ∅ ["node"; "build/index.js"]) !! 3%nat
    = Some (Startup.server_connect Startup.StreamableHTTPServerTransport) /\
  (1 < 3)%nat.
Proof.
  split; [reflexivity|]. split; [reflexivity|].
  apply (proj1 (registration_precedes_connect Sample.parse_digits (fun _ => true) Sample.listen_checked
                  (Startup.allTools [Startup.mkTool "getNowPlaying" "reads"]
                     [Startup.mkTool "playMusic" "plays"] [])
                  (Startup.mkProcess ∅ ["node"; "build/index.js"]))
           1%nat 3%nat (Startup.mkTool "playMusic" "plays")
           Startup.StreamableHTTPServerTransport);
    reflexivity.
Defined.

(** A name used twice: the third call throws, the module stops there and
    no transport is ever connected. *)
Example duplicate_name_stops_startup :
  Startup.program Sample.parse_digits (fun _ => true) Sample.listen_checked
      (Startup.allTools [Startup.mkTool "search" "reads"]
         [Startup.mkTool "playMusic" "plays"] [Startup.mkTool "search" "albums"])
      (Startup.mkProcess ∅ ["node"; "build/index.js"])
    = [Startup.server_tool (Startup.mkTool "search" "reads");
       Startup.server_tool (Startup.mkTool "playMusic" "plays");
       Startup.server_tool (Startup.mkTool "search" "albums")].
Proof. reflexivity. Qed.

(** C9 as stated fails.  With PORT set to 70000 the call of [listen]
    throws, the process exits with code 1 and no listener binds to the
    port PORT gives; with HOST and PORT set to the empty string the
    listener binds to the defaults, not to what the variables give. *)
Lemma port_and_host_not_as_given :
  Startup.env (Startup.mkProcess {[ "PORT" := "70000" ]} []) !! "PORT" = Some "70000" /\
  Sample.parse_digits "70000" = Startup.Int 70000 /\
  Startup.main Sample.parse_digits (fun _ => true) Sample.listen_checked
      (Startup.mkProcess {[ "PORT" := "70000" ]} [])
    = [Startup.server_connect Startup.StreamableHTTPServerTransport;
       Startup.http_createServer;
       Startup.httpServer_listen (Startup.Int 70000) "0.0.0.0";
       Startup.process_exit 1] /\
  Startup.env (Startup.mkProcess {[ "HOST" := ""; "PORT" := "" ]} []) !! "HOST" = Some "" /\
  Startup.env (Startup.mkProcess {[ "HOST" := ""; "PORT" := "" ]} []) !! "PORT" = Some "" /\
  Startup.main Sample.parse_digits (fun _ => true) Sample.listen_checked
      (Startup.mkProcess {[ "HOST" := ""; "PORT" := "" ]} [])
    = [Startup.server_connect Startup.StreamableHTTPServerTransport;
       Startup.http_createServer;
       Startup.httpServer_listen (Startup.Int 8888) "0.0.0.0";
       Startup.console_log_listening "0.0.0.0" (Startup.Int 8888)] /\
  Startup.host (Startup.mkProcess {[ "HOST" := ""; "PORT" := "" ]} []) <> "" /\
  Startup.port Sample.parse_digits (Startup.mkProcess {[ "HOST" := ""; "PORT" := "" ]} [])
    <> Sample.parse_digits "".
Proof.
  repeat split; try (vm_compute; reflexivity); vm_compute; discriminate.
Qed.

Lemma transport_and_listener_witness :
  Startup.main Sample.parse_digits (fun _ => true) Sample.listen_checked
      (Startup.mkProcess {[ "HOST" := "127.0.0.1"; "PORT" := "3000" ]} ["node"; "build/index.js"])
    = [Startup.server_connect Startup.StreamableHTTPServerTransport;
       Startup.http_createServer;
       Startup.httpServer_listen
         (Startup.port Sample.parse_digits
            (Startup.mkProcess {[ "HOST" := "127.0.0.1"; "PORT" := "3000" ]}
               ["node"; "build/index.js"]))
         (Startup.host
            (Startup.mkProcess {[ "HOST" := "127.0.0.1"; "PORT" := "3000" ]}
               ["node"; "build/index.js"]))]
      ++ (match Sample.listen_checked
                  (Startup.port Sample.parse_digits
                     (Startup.mkProcess {[ "HOST" := "127.0.0.1"; "PORT" := "3000" ]}
                        ["node"; "build/index.js"]))
                  (Startup.host
                     (Startup.mkProcess {[ "HOST" := "127.0.0.1"; "PORT" := "3000" ]}
                        ["node"; "build/index.js"]))
          with
          | Startup.Listening =>
              [Startup.console_log_listening
                 (Startup.host
                    (Startup.mkProcess {[ "HOST" := "127.0.0.1"; "PORT" := "3000" ]}
                       ["node"; "build/index.js"]))
                 (Startup.port Sample.parse_digits
                    (Startup.mkProcess {[ "HOST" := "127.0.0.1"; "PORT" := "3000" ]}
                       ["node"; "build/index.js"]))]
          | Startup.ListenThrows | Startup.ListenFails => [Startup.process_exit 1]
          end).
Proof.
  apply (proj1 (proj2 (proj2 (transport_and_listener Sample.parse_digits (fun _ => true)
           Sample.listen_checked
           (Startup.mkProcess {[ "HOST" := "127.0.0.1"; "PORT" := "3000" ]}
              ["node"; "build/index.js"])))));
    reflexivity.
Defined.

Example listener_on_given_port :
  Startup.main Sample.parse_digits (fun _ => true) Sample.listen_checked
      (Startup.mkProcess {[ "HOST" := "127.0.0.1"; "PORT" := "3000" ]} ["node"; "build/index.js"])
    = [Startup.server_connect Startup.StreamableHTTPServerTransport;
       Startup.http_createServer;
       Startup.httpServer_listen (Startup.Int 3000) "127.0.0.1";
       Startup.console_log_listening "127.0.0.1" (Startup.Int 3000)].
Proof. vm_compute. reflexivity. Qed.

(** A port that is not a number: [listen] is called with NaN and throws. *)
Example listener_on_bad_port :
  Startup.main Sample.parse_digits (fun _ => true) Sample.listen_checked
      (Startup.mkProcess {[ "PORT" := "abc" ]} ["node"; "build/index.js"])
    = [Startup.server_connect Startup.StreamableHTTPServerTransport;
       Startup.http_createServer;
       Startup.httpServer_listen Startup.NaN "0.0.0.0";
       Startup.process_exit 1].
Proof. vm_compute. reflexivity. Qed.

Example stdio_by_flag :
  Startup.main Sample.parse_digits (fun _ => true) Sample.listen_checked
      (Startup.mkProcess ∅ ["node"; "build/index.js"; "--stdio"])
    = [Startup.server_connect Startup.StdioServerTransport].
Proof. vm_compute. reflexivity. Qed.

(** ** The credential carrier under every schedule *)

Section CarrierFacts.
Import Carrier.

(** A turn on the stream leaves the store as it found it, touches no
    call, and adds only readings of the bound value made by its call; a
    continuation it leaves behind holds that value. *)
Lemma run_sync_spec (id : nat) (ops : list op) (m : machine) :
  store (run_sync id ops m).1 = store m /\
  calls (run_sync id ops m).1 = calls m /\
  (exists n, observed (run_sync id ops m).1 = observed m ++ replicate n (id, store m)) /\
  ((run_sync id ops m).2 = Finished \/
   exists k, (run_sync id ops m).2 = Suspended (store m) k).
Proof.
  revert m. induction ops as [|[|] k IH]; intros m; cbn [run_sync].
  - repeat split; [exists 0%nat; cbn; now rewrite app_nil_r | now left].
  - destruct (IH (current id m)) as (Hs & Hc & (n & Ho) & Hst). cbn [current store calls observed] in *.
    repeat split; [assumption | assumption | | assumption].
    exists (S n). rewrite Ho, <- app_assoc. reflexivity.
  - repeat split; [exists 0%nat; cbn; now rewrite app_nil_r | right; now exists k].
Qed.

Lemma arrived_consistent (requests : list (Credential * list op)) :
  consistent requests (arrived requests).
Proof.
  split; [reflexivity|]. split.
  - intros id st. cbn [arrived calls]. rewrite list_lookup_fmap.
    destruct (requests !! id) as [[credential fn]|] eqn:Hreq; [|discriminate].
    intros [= <-]. now exists credential, fn.
  - intros id v Hin. cbn in Hin. now apply elem_of_nil in Hin.
Qed.

Lemma enter_consistent (requests : list (Credential * list op)) (id : nat)
    (ambient : option Credential) (ops : list op) (m : machine) :
  consistent requests m -> owns requests id ambient ->
  consistent requests (enter id ambient ops m).
Proof.
  intros (Hstore & Hcalls & Hobs) Hown. unfold enter.
  destruct (run_sync_spec id ops (bind_store ambient m)) as (_ & Hc & (n & Ho) & Hst).
  destruct (run_sync id ops (bind_store ambient m)) as [m' st].
  cbn [fst snd bind_store store calls observed] in *.
  split; [assumption|]. split; cbn [calls observed].
  - intros id' st'. rewrite Hc. intros Hlook.
    apply list_lookup_insert_Some in Hlook as [(-> & <- & _) | (_ & Hold)];
      [|now apply Hcalls].
    destruct Hst as [-> | (k & ->)]; [exact I | assumption].
  - intros id' v. rewrite Ho, elem_of_app. intros [Hin | Hin]; [now apply Hobs|].
    apply elem_of_replicate in Hin as [[= -> ->] _]. assumption.
Qed.

Lemma step_consistent (requests : list (Credential * list op)) (m : machine) (id : nat) :
  consistent requests m -> consistent requests (step m id).
Proof.
  intros Hm. unfold step.
  destruct (calls m !! id) as [[credential fn | captured k |]|] eqn:Hcall;
    try assumption; apply enter_consistent; try assumption;
    destruct Hm as (_ & Hcalls & _); exact (Hcalls _ _ Hcall).
Qed.

Lemma run_schedule_consistent (requests : list (Credential * list op))
    (schedule : list nat) (m : machine) :
  consistent requests m -> consistent requests (run_schedule m schedule).
Proof.
  revert m. induction schedule as [|id schedule IH]; intros m Hm; [assumption|].
  cbn [run_schedule fold_left]. apply IH. now apply step_consistent.
Qed.

(** Any number of calls: a reading made by a call returns the credential
    that call was started with. *)
Lemma readings_own (requests : list (Credential * list op)) (schedule : list nat)
    (id : nat) (v : option Credential) :
  (id, v) ∈ observed (run_schedule (arrived requests) schedule) ->
  owns requests id v.
Proof.
  intros Hin.
  destruct (run_schedule_consistent requests schedule _ (arrived_consistent requests))
    as (_ & _ & Hobs).
  now apply Hobs.
Qed.

(** C1: two calls with distinct credentials X and Y run under the
    carrier on one stream; whatever the schedule (which call gets the
    stream at each turn, so every interleaving, including the second
    call starting and finishing while the first is suspended), every
    reading of the ambient credential made by the first call returns X
    and not Y, and every reading made by the second returns Y and not
    X. *)
Theorem credential_isolation (X Y : Credential) (fn1 fn2 : list op)
    (schedule : list nat) (id : nat) (v : option Credential) :
  X <> Y ->
  (id, v) ∈ observed (run_schedule (arrived [(X, fn1); (Y, fn2)]) schedule) ->
  (id = 0%nat /\ v = Some X /\ v <> Some Y) \/
  (id = 1%nat /\ v = Some Y /\ v <> Some X).
Proof.
  intros Hdistinct Hin. apply readings_own in Hin as (credential & fn & Hreq & ->).
  destruct id as [|[|id]]; cbn in Hreq; [| |discriminate].
  - injection Hreq as <- <-. left. repeat split. congruence.
  - injection Hreq as <- <-. right. repeat split. congruence.
Qed.

End CarrierFacts.

(** Two calls interleaved turn by turn: the second starts and finishes
    while the first is suspended, and each reads its own credential. *)
Example interleaved_calls :
  Carrier.observed
    (Carrier.run_schedule
       (Carrier.arrived [("X", [Carrier.Current; Carrier.Await; Carrier.Current]);
                         ("Y", [Carrier.Current; Carrier.Await; Carrier.Current])])
       [0; 1; 1; 0]%nat)
    = [(0%nat, Some "X"); (1%nat, Some "Y"); (1%nat, Some "Y"); (0%nat, Some "X")].
Proof. reflexivity. Qed.

Lemma credential_isolation_witness :
  (0%nat = 0%nat /\ Some "X" = Some "X" /\ Some "X" <> Some "Y") \/
  (0%nat = 1%nat /\ Some "X" = Some "Y" /\ Some "X" <> Some "X").
Proof.
  apply (credential_isolation "X" "Y"
           [Carrier.Current; Carrier.Await; Carrier.Current]
           [Carrier.Current; Carrier.Await; Carrier.Current]
           [0; 1; 1; 0]%nat 0%nat (Some "X")).
  - discriminate.
  - apply list_elem_of_In. vm_compute. do 3 right. left. reflexivity.
Defined.

(** ** The handler on the requests of the specification's examples *)

(** A POST to "/mcp" with a token and a "tools/list" body: the transport
    is called with the decoded body under that token, and its answer is
    the response. *)
Example tools_list_served :
  let served := @Http.serve Sample.imports
      (Sample.post "/mcp" [("Token", Http.HString "abc123")]
         (Json.stringify Sample.tools_list)) in
  Http.res served.1 = Sample.answered Http.fresh_response "event: message" /\
  Http.HandleRequest "abc123" (Some Sample.tools_list) ∈ Http.trace served.1 /\
  Http.Console Http.LogCompleted ∈ Http.trace served.1.
Proof.
  cbv zeta. split; [vm_compute; reflexivity|]. split; in_concrete_trace.
Qed.

(** The header name in capitals is found all the same. *)
Example header_name_in_capitals :
  Http.HandleRequest "abc123" (Some Sample.tools_list)
    ∈ Http.trace (@Http.serve Sample.imports
                    (Sample.post "/" [("TOKEN", Http.HString "abc123")]
                       (Json.stringify Sample.tools_list))).1.
Proof. in_concrete_trace. Qed.

(** A failure after the header block is out: the response stays as the
    transport left it, and the handler writes nothing. *)
Example late_failure_leaves_response :
  let served := @Http.serve Sample.imports
      (Sample.post "/mcp" [("Token", Http.HString "abc123")]
         (Json.stringify Sample.late_failing_call)) in
  Http.res served.1 = Sample.sse_started Http.fresh_response /\
  (Http.ResWriteHead 500 ∉ Http.trace served.1) /\
  Http.Console (Http.LogRequestError (Http.ThrownError "stream failed"))
    ∈ Http.trace served.1.
Proof.
  cbv zeta. split; [vm_compute; reflexivity|]. split; [|in_concrete_trace].
  intros Hin. apply list_elem_of_In in Hin. vm_compute in Hin.
  repeat destruct Hin as [Hin | Hin]; try discriminate Hin; exact Hin.
Qed.

(** A body that is not JSON reaches the transport as its text. *)
Example raw_text_dispatched :
  Http.HandleRequest "abc123" (Some (Json.JString "not json"))
    ∈ Http.trace (@Http.serve Sample.imports
                    (Sample.post "/mcp" [("Token", Http.HString "abc123")] "not json")).1.
Proof. in_concrete_trace. Qed.

(** * More of the handler *)

Section HandlerCoverage.
Import Json Http.
Context `{Imports}.

(** With a route and a credential, the whole run of the listener: the
    opening, the body phase, the dispatch. *)
Lemma serve_with_token (req : IncomingMessage) (token : string) :
  request_url req = "/" \/ request_url req = "/mcp" ->
  extractRefreshTokenFromHeaders (normalizeHeaders (headers req)) = Some token ->
  nonempty token = true ->
  serve req =
    let opening :=
      [ExtractToken (normalizeHeaders (headers req));
       Console (LogRequest (method req) (request_url req) (tokenPreview token))] in
    let reads := ReadChunk <$> stream_chunks (stream req) in
    if is_POST (method req) then
      match stream_error (stream req) with
      | Some e => on_error e {| res := fresh_response; trace := opening ++ reads |}
      | None =>
          dispatch_from req token (payload_of (body_text req))
            {| res := fresh_response;
               trace := opening ++ reads ++ payload_events (body_text req) |}
      end
    else dispatch_from req token None {| res := fresh_response; trace := opening |}.
Proof.
  intros Hroute Hextract Hne. unfold serve, requestListener, try_catch.
  rewrite (handle_with_token _ _ Hroute Hextract Hne). cbn zeta.
  rewrite parse_body_spec. cbn [res trace]. unfold dispatch_from.
  destruct (is_POST (method req));
    [destruct (stream_error (stream req)) as [err|]|]; cbn [res trace];
    try reflexivity;
    destruct (transport_handleRequest req _ token fresh_response) as [r [[]|err]];
    reflexivity.
Qed.

(** The outer [catch] always returns. *)
Lemma on_error_returns (error : thrown) (w : world) :
  (on_error error w).2 = Returned tt.
Proof. rewrite on_error_spec. now destruct (headersSent (res w)). Qed.

Lemma dispatch_from_returns (req : IncomingMessage) (token : string)
    (parsedBody : option value) (w : world) :
  (dispatch_from req token parsedBody w).2 = Returned tt.
Proof.
  unfold dispatch_from.
  destruct (transport_handleRequest req parsedBody token (res w)) as [r [[]|e]];
    [reflexivity | apply on_error_returns].
Qed.

(** The listener never throws: whatever the request is and whatever the
    stream and the transport do, the handler returns.  In particular the
    three [writeHead] calls are never made on a response whose header
    block is out. *)
Theorem listener_never_throws (req : IncomingMessage) :
  (serve req).2 = Returned tt.
Proof.
  destruct (on_route_dec (request_url req)) as [Hroute | [H1 H2]];
    [|now rewrite (serve_other_route _ H1 H2)].
  destruct (truthy (extractRefreshTokenFromHeaders (normalizeHeaders (headers req))))
    eqn:Htok; [|now rewrite (serve_no_token _ Hroute Htok)].
  destruct (truthy_token _ Htok) as (token & Hextract & Hne).
  rewrite (serve_with_token _ _ Hroute Hextract Hne). cbn zeta.
  destruct (is_POST (method req));
    [destruct (stream_error (stream req))|];
    auto using on_error_returns, dispatch_from_returns.
Qed.

(** What [dispatch_from] adds to the trace: one call of the transport,
    then lines on the console, then at most the 500 answer. *)
Lemma dispatch_from_trace (req : IncomingMessage) (token : string)
    (parsedBody : option value) (w : world) :
  exists after,
    trace (dispatch_from req token parsedBody w).1
      = trace w ++ HandleRequest token parsedBody :: after /\
    Forall (fun e => is_dispatch e = false /\ is_read e = false) after.
Proof.
  unfold dispatch_from.
  destruct (transport_handleRequest req parsedBody token (res w)) as [r [[]|e]].
  - exists [Console LogCompleted]. split; [reflexivity|]. repeat constructor.
  - rewrite on_error_spec. cbn [res trace].
    destruct (headersSent r); cbn [fst trace]; rewrite <- app_assoc;
      eexists; (split; [reflexivity|]); repeat constructor.
Qed.

Lemma on_error_trace (error : thrown) (w : world) :
  exists after,
    trace (on_error error w).1 = trace w ++ after /\
    Forall (fun e => is_dispatch e = false /\ is_read e = false) after.
Proof.
  rewrite on_error_spec.
  destruct (headersSent (res w)); cbn [fst trace];
    eexists; (split; [reflexivity|]); repeat constructor.
Qed.

Lemma payload_events_console (body : string) :
  Forall (fun e => is_dispatch e = false /\ is_read e = false) (payload_events body).
Proof.
  unfold payload_events, method_line.
  destruct (nonempty body); [|constructor].
  destruct (JSON_parse body) as [[| | | | |props]|]; try constructor.
  destruct (own_property "method" props) as [m|]; [|constructor].
  destruct (toString_throws m); repeat constructor.
Qed.

Lemma payload_events_are_method_lines (body : string) (e : event) :
  e ∈ payload_events body -> exists m, e = Console (LogMcpMethod m).
Proof.
  unfold payload_events, method_line.
  destruct (nonempty body); [|intros Hin; in_trace].
  destruct (JSON_parse body) as [[| | | | |props]|]; try solve [intros Hin; in_trace].
  destruct (own_property "method" props) as [m|]; [|intros Hin; in_trace].
  destruct (toString_throws m); intros Hin; in_trace. now exists m.
Qed.

(** An event of another kind is in none of the pieces of a trace. *)
Ltac absent :=
  repeat match goal with
         | Hin : _ ∈ _ ++ _ |- _ => apply elem_of_app in Hin; destruct Hin as [Hin | Hin]
         | Hin : _ ∈ _ :: _ |- _ =>
             apply elem_of_cons in Hin; destruct Hin as [Hin | Hin]; [discriminate Hin|]
         | Hin : _ ∈ [] |- _ => now apply elem_of_nil in Hin
         | Hin : _ ∈ _ <$> _ |- _ =>
             apply list_elem_of_fmap in Hin; destruct Hin as (? & Hin & _); discriminate Hin
         | Hin : _ ∈ payload_events _ |- _ =>
             apply payload_events_are_method_lines in Hin as (? & Hin); discriminate Hin
         end.

Lemma reads_are_reads (chunks : list Buffer) :
  filter (fun e => is_read e = true) (ReadChunk <$> chunks) = ReadChunk <$> chunks.
Proof. apply filter_all, Forall_fmap, Forall_forall. now intros. Qed.

Lemma no_read_filtered (l : list event) :
  Forall (fun e => is_dispatch e = false /\ is_read e = false) l ->
  filter (fun e => is_read e = true) l = [].
Proof.
  intros Hl. apply filter_none. eapply Forall_impl; [exact Hl|].
  cbn. intros e [_ He]. congruence.
Qed.

Lemma no_dispatch_filtered (l : list event) :
  Forall (fun e => is_dispatch e = false /\ is_read e = false) l ->
  filter (fun e => is_dispatch e = true) l = [].
Proof.
  intros Hl. apply filter_none. eapply Forall_impl; [exact Hl|].
  cbn. intros e [He _]. congruence.
Qed.

Lemma no_dispatch_in_reads (chunks : list Buffer) :
  filter (fun e => is_dispatch e = true) (ReadChunk <$> chunks) = [].
Proof. apply filter_none, Forall_fmap, Forall_forall. cbn. intros; discriminate. Qed.

(** When the transport returns, the response is the transport's: the
    handler has written no status line and no body of its own, and the
    last thing it does is print the completion line. *)
Theorem success_leaves_response_to_transport (req : IncomingMessage) (token : string)
    (r : ServerResponse) :
  request_url req = "/" \/ request_url req = "/mcp" ->
  extractRefreshTokenFromHeaders (normalizeHeaders (headers req)) = Some token ->
  nonempty token = true ->
  (is_POST (method req) = true -> stream_error (stream req) = None) ->
  transport_handleRequest req
    (if is_POST (method req) then payload_of (body_text req) else None)
    token fresh_response = (r, Returned tt) ->
  res (serve req).1 = r /\
  (forall status, ResWriteHead status ∉ trace (serve req).1) /\
  (forall data, ResEnd data ∉ trace (serve req).1) /\
  last (trace (serve req).1) = Some (Console LogCompleted).
Proof.
  intros Hroute Hextract Hne Hstream Hcall.
  rewrite (serve_with_token _ _ Hroute Hextract Hne). cbn zeta.
  unfold dispatch_from.
  destruct (is_POST (method req)); [rewrite Hstream by reflexivity|];
    cbn [res trace]; rewrite Hcall; cbn [fst res trace].
  - split; [reflexivity|].
    split; [|split; [|now rewrite !last_app]]; intros x Hin; absent.
  - split; [reflexivity|].
    split; [|split; [|reflexivity]]; intros x Hin; absent.
Qed.

(** The transport is called at most once for a request, and exactly once
    when the request is on a route, carries a credential and its body,
    if it is a POST, is read to the end. *)
Theorem dispatched_at_most_once (req : IncomingMessage) :
  (length (filter (fun e => is_dispatch e = true) (trace (serve req).1)) <= 1)%nat /\
  ((request_url req = "/" \/ request_url req = "/mcp") ->
   truthy (extractRefreshTokenFromHeaders (normalizeHeaders (headers req))) = true ->
   (is_POST (method req) = true -> stream_error (stream req) = None) ->
   length (filter (fun e => is_dispatch e = true) (trace (serve req).1)) = 1%nat).
Proof.
  destruct (on_route_dec (request_url req)) as [Hroute | [H1 H2]].
  2:{ rewrite (serve_other_route _ H1 H2). split; [vm_compute; lia | tauto]. }
  destruct (truthy (extractRefreshTokenFromHeaders (normalizeHeaders (headers req))))
    eqn:Htok.
  2:{ rewrite (serve_no_token _ Hroute Htok). cbn [fst trace].
      rewrite filter_cons_False by discriminate. split; [vm_compute; lia | discriminate]. }
  destruct (truthy_token _ Htok) as (token & Hextract & Hne).
  rewrite (serve_with_token _ _ Hroute Hextract Hne). cbn zeta.
  destruct (is_POST (method req)).
  - destruct (stream_error (stream req)) as [err|].
    + destruct (on_error_trace err
                  {| res := fresh_response;
                     trace := [ExtractToken (normalizeHeaders (headers req));
                               Console (LogRequest (method req) (request_url req)
                                          (tokenPreview token))]
                              ++ (ReadChunk <$> stream_chunks (stream req)) |})
        as (after & -> & Hafter).
      cbn [trace]. rewrite !filter_app, no_dispatch_in_reads, (no_dispatch_filtered _ Hafter).
      rewrite !filter_cons_False, filter_nil by discriminate.
      split; [cbn; lia|]. intros _ _ Hs. now specialize (Hs eq_refl).
    + destruct (dispatch_from_trace req token (payload_of (body_text req))
                  {| res := fresh_response;
                     trace := [ExtractToken (normalizeHeaders (headers req));
                               Console (LogRequest (method req) (request_url req)
                                          (tokenPreview token))]
                              ++ (ReadChunk <$> stream_chunks (stream req))
                              ++ payload_events (body_text req) |})
        as (after & -> & Hafter).
      cbn [trace]. rewrite !filter_app.
      rewrite !filter_cons_False, filter_nil by discriminate.
      rewrite no_dispatch_in_reads, filter_cons_True by reflexivity.
      rewrite (no_dispatch_filtered _ Hafter),
        (no_dispatch_filtered _ (payload_events_console (body_text req))).
      split; [cbn; lia | intros; reflexivity].
  - destruct (dispatch_from_trace req token None
                {| res := fresh_response;
                   trace := [ExtractToken (normalizeHeaders (headers req));
                             Console (LogRequest (method req) (request_url req)
                                        (tokenPreview token))] |})
      as (after & -> & Hafter).
    cbn [trace]. rewrite !filter_app.
    rewrite !filter_cons_False, filter_nil by discriminate.
    rewrite filter_cons_True by reflexivity.
    rewrite (no_dispatch_filtered _ Hafter).
    split; [cbn; lia | intros; reflexivity].
Qed.

(** A POST body is buffered whole before the transport sees the request:
    every chunk of the stream is read, in order, before the call, and
    nothing is read after it. *)
Theorem body_buffered_before_dispatch (req : IncomingMessage) (token : string) :
  request_url req = "/" \/ request_url req = "/mcp" ->
  extractRefreshTokenFromHeaders (normalizeHeaders (headers req)) = Some token ->
  nonempty token = true ->
  is_POST (method req) = true ->
  stream_error (stream req) = None ->
  exists before after,
    trace (serve req).1
      = before ++ HandleRequest token (payload_of (body_text req)) :: after /\
    filter (fun e => is_read e = true) before = ReadChunk <$> stream_chunks (stream req) /\
    filter (fun e => is_read e = true) after = [].
Proof.
  intros Hroute Hextract Hne Hpost Hstream.
  rewrite (serve_with_token _ _ Hroute Hextract Hne). cbn zeta.
  rewrite Hpost, Hstream.
  destruct (dispatch_from_trace req token (payload_of (body_text req))
              {| res := fresh_response;
                 trace := [ExtractToken (normalizeHeaders (headers req));
                           Console (LogRequest (method req) (request_url req)
                                      (tokenPreview token))]
                          ++ (ReadChunk <$> stream_chunks (stream req))
                          ++ payload_events (body_text req) |})
    as (after & Htrace & Hafter).
  eexists _, after. split; [exact Htrace|]. cbn [trace]. split.
  - rewrite !filter_app, reads_are_reads,
      (no_read_filtered _ (payload_events_console (body_text req))).
    cbn. now rewrite app_nil_r.
  - now apply no_read_filtered.
Qed.

(** When the body stream of a POST fails, the transport is never called:
    the chunks that came before the failure have been read, and the
    client gets the 500 answer with the message of the stream's error. *)
Theorem failed_stream_skips_dispatch (req : IncomingMessage) (token : string)
    (error : thrown) :
  request_url req = "/" \/ request_url req = "/mcp" ->
  extractRefreshTokenFromHeaders (normalizeHeaders (headers req)) = Some token ->
  nonempty token = true ->
  is_POST (method req) = true ->
  stream_error (stream req) = Some error ->
  (forall ambient parsedBody, HandleRequest ambient parsedBody ∉ trace (serve req).1) /\
  filter (fun e => is_read e = true) (trace (serve req).1)
    = ReadChunk <$> stream_chunks (stream req) /\
  res (serve req).1 =
    {| progress := Ended; statusCode := 500; responseHeaders := json_content_type;
       written := [stringify (error_envelope (-32603) (message_of error))] |}.
Proof.
  intros Hroute Hextract Hne Hpost Hstream. split; [|split].
  - intros ambient parsedBody Hin. apply serve_events in Hin. unfold expected in Hin.
    rewrite Hpost, Hstream in Hin. destruct Hin as (_ & _ & _ & Hno & _). discriminate.
  - rewrite (serve_with_token _ _ Hroute Hextract Hne). cbn zeta.
    rewrite Hpost, Hstream, on_error_spec. cbn [res trace headersSent fresh_response progress fst].
    rewrite !filter_app, reads_are_reads. cbn. now rewrite app_nil_r.
  - rewrite (serve_with_token _ _ Hroute Hextract Hne). cbn zeta.
    rewrite Hpost, Hstream, on_error_spec. reflexivity.
Qed.

(** Like [absent], leaving what may be in the lines of the body phase. *)
Ltac sift :=
  repeat match goal with
         | Hin : _ ∈ _ ++ _ |- _ => apply elem_of_app in Hin; destruct Hin as [Hin | Hin]
         | Hin : _ ∈ _ :: _ |- _ =>
             apply elem_of_cons in Hin; destruct Hin as [Hin | Hin]; [discriminate Hin|]
         | Hin : _ ∈ [] |- _ => now apply elem_of_nil in Hin
         | Hin : _ ∈ _ <$> _ |- _ =>
             apply list_elem_of_fmap in Hin; destruct Hin as (? & Hin & _); discriminate Hin
         end.

Lemma method_line_in_payload_events (body : string) (m : value) :
  Console (LogMcpMethod m) ∈ payload_events body ->
  exists props,
    JSON_parse body = Returned (JObject props) /\
    own_property "method" props = Some m /\
    toString_throws m = false.
Proof.
  unfold payload_events, method_line.
  destruct (nonempty body); [|intros Hin; sift].
  destruct (JSON_parse body) as [[| | | | |props]|]; try solve [intros Hin; sift].
  destruct (own_property "method" props) as [m'|] eqn:Hm; [|intros Hin; sift].
  destruct (toString_throws m') eqn:Ht; intros Hin; [sift|].
  apply elem_of_cons in Hin as [[= ->] | Hin]; [|sift].
  now exists props.
Qed.

(** The "MCP method" line is printed only for a POST whose body was read
    to the end and parsed to an object with a "method" member, and what
    it prints is that member: never for a body that is an array, a
    string or a number, never for a body that is not JSON. *)
Theorem method_line_origin (req : IncomingMessage) (m : value) :
  Console (LogMcpMethod m) ∈ trace (serve req).1 ->
  is_POST (method req) = true /\
  stream_error (stream req) = None /\
  exists props,
    JSON_parse (body_text req) = Returned (JObject props) /\
    own_property "method" props = Some m /\
    toString_throws m = false.
Proof.
  destruct (on_route_dec (request_url req)) as [Hroute | [H1 H2]].
  2:{ rewrite (serve_other_route _ H1 H2). cbn [fst trace]. intros Hin; sift. }
  destruct (truthy (extractRefreshTokenFromHeaders (normalizeHeaders (headers req))))
    eqn:Htok.
  2:{ rewrite (serve_no_token _ Hroute Htok). cbn [fst trace]. intros Hin; sift. }
  destruct (truthy_token _ Htok) as (token & Hextract & Hne).
  rewrite (serve_with_token _ _ Hroute Hextract Hne). cbn zeta. unfold dispatch_from.
  destruct (is_POST (method req)).
  - destruct (stream_error (stream req)) as [err|].
    + rewrite on_error_spec. cbn [res trace headersSent fresh_response progress fst].
      intros Hin; sift.
    + cbn [res].
      destruct (transport_handleRequest req _ token fresh_response) as [r [[]|err]].
      * cbn [fst trace]. intros Hin; sift.
        split; [reflexivity|]. split; [reflexivity|].
        now apply method_line_in_payload_events.
      * rewrite on_error_spec. cbn [res trace].
        destruct (headersSent r); cbn [fst trace]; intros Hin; sift;
          (split; [reflexivity|]; split; [reflexivity|]);
          now apply method_line_in_payload_events.
  - cbn [res].
    destruct (transport_handleRequest req None token fresh_response) as [r [[]|err]].
    + cbn [fst trace]. intros Hin; sift.
    + rewrite on_error_spec. cbn [res trace].
      destruct (headersSent r); cbn [fst trace]; intros Hin; sift.
Qed.

(** A request the handler answers with 404 or 400 leaves nothing on the
    console: no request line, so no part of any credential either. *)
Theorem rejected_requests_print_nothing (req : IncomingMessage) :
  ~ (request_url req = "/" \/ request_url req = "/mcp") \/
  truthy (extractRefreshTokenFromHeaders (normalizeHeaders (headers req))) = false ->
  forall l, Console l ∉ trace (serve req).1.
Proof.
  intros Hrejected l Hin.
  destruct (on_route_dec (request_url req)) as [Hroute | [H1 H2]].
  - destruct Hrejected as [Hno | Htok]; [tauto|].
    rewrite (serve_no_token _ Hroute Htok) in Hin. cbn [fst trace] in Hin. sift.
  - rewrite (serve_other_route _ H1 H2) in Hin. cbn [fst trace] in Hin. sift.
Qed.

(** A request with no URL, or with an empty one, is routed as "/": it
    passes the route check and goes on to the credential check. *)
Theorem missing_url_routed_as_root (req : IncomingMessage) :
  url req = None \/ url req = Some "" ->
  request_url req = "/" /\
  ExtractToken (normalizeHeaders (headers req)) ∈ trace (serve req).1 /\
  ResWriteHead 404 ∉ trace (serve req).1.
Proof.
  intros Hurl.
  assert (Hroot : request_url req = "/").
  { unfold request_url. now destruct Hurl as [-> | ->]. }
  assert (Hroute : request_url req = "/" \/ request_url req = "/mcp") by now left.
  split; [assumption|]. split.
  - destruct (truthy (extractRefreshTokenFromHeaders (normalizeHeaders (headers req))))
      eqn:Htok.
    + destruct (truthy_token _ Htok) as (token & Hextract & Hne).
      destruct (serve_opening _ _ Hroute Hextract Hne) as (rest & ->).
      apply elem_of_cons. now left.
    + rewrite (serve_no_token _ Hroute Htok). cbn [fst trace].
      apply elem_of_cons. now left.
  - intros Hin. apply serve_events in Hin. unfold expected in Hin.
    destruct Hin as [[_ Hno] | [[Heq _] | [Heq _]]]; [tauto | discriminate..].
Qed.

(** The health check of the Dockerfile asks for "/" and takes 404 for
    health.  "/" is a route, so when its headers yield no credential the
    answer is 400 and the check exits with 1. *)
Theorem healthcheck_exits_1 (hs : list (string * header_value)) :
  truthy (extractRefreshTokenFromHeaders (normalizeHeaders hs)) = false ->
  statusCode (res (serve (Healthcheck.request hs)).1) = 400 /\
  Healthcheck.exit_code (statusCode (res (serve (Healthcheck.request hs)).1)) = 1.
Proof.
  intros Htok.
  rewrite (serve_no_token (Healthcheck.request hs) (or_introl eq_refl) Htok).
  split; reflexivity.
Qed.

End HandlerCoverage.

(** * More of the header object and of the start-up *)

Lemma lower_char_idempotent (c : ascii) :
  Http.lower_char (Http.lower_char c) = Http.lower_char c.
Proof. destruct c as [[] [] [] [] [] [] [] []]; reflexivity. Qed.

Lemma toLowerCase_idempotent (s : string) :
  Http.toLowerCase (Http.toLowerCase s) = Http.toLowerCase s.
Proof.
  induction s as [|c s IH]; [reflexivity|].
  cbn [Http.toLowerCase]. now rewrite lower_char_idempotent, IH.
Qed.

(** One more entry is one more assignment. *)
Lemma normalizeHeaders_snoc (hs : list (string * Http.header_value))
    (name : string) (v : Http.header_value) :
  Http.normalizeHeaders (hs ++ [(name, v)])
    = Http.assign (Http.normalizeHeaders hs) (Http.toLowerCase name) v.
Proof. unfold Http.normalizeHeaders. now rewrite fold_left_app. Qed.

Lemma own_assign_proto (o : Http.headers_object) (v : Http.header_value) :
  Http.own (Http.assign o "__proto__" v) = Http.own o.
Proof. unfold Http.assign. cbn. now destruct v. Qed.

Lemma normalizeHeaders_own_last (hs : list (string * Http.header_value)) (key : string) :
  key <> "__proto__" ->
  Http.own (Http.normalizeHeaders hs) !! key
    = snd <$> last (filter (fun entry => Http.toLowerCase (fst entry) = key) hs).
Proof.
  intros Hkey. induction hs as [|[name v] hs IH] using rev_ind; [reflexivity|].
  rewrite normalizeHeaders_snoc, filter_app, filter_cons, filter_nil. cbn [fst].
  destruct (decide (Http.toLowerCase name = key)) as [<- | Hne].
  - unfold Http.assign. apply String.eqb_neq in Hkey. rewrite Hkey.
    cbn [Http.own]. now rewrite lookup_insert_eq, last_snoc.
  - rewrite app_nil_r, <- IH. unfold Http.assign.
    destruct (String.eqb_spec (Http.toLowerCase name) "__proto__") as [Hp | Hp].
    + now destruct v.
    + cbn [Http.own]. now rewrite lookup_insert_ne.
Qed.

Lemma normalizeHeaders_own_no_proto (hs : list (string * Http.header_value)) :
  Http.own (Http.normalizeHeaders hs) !! "__proto__" = None.
Proof.
  induction hs as [|[name v] hs IH] using rev_ind; [reflexivity|].
  rewrite normalizeHeaders_snoc. unfold Http.assign.
  destruct (String.eqb_spec (Http.toLowerCase name) "__proto__") as [Hp | Hp].
  - now destruct v.
  - cbn [Http.own]. now rewrite lookup_insert_ne.
Qed.

(** The own properties of the object built by lines 69-72, those
    [Object.entries] lists: under a key other than "__proto__" stands
    the value of the last entry whose lower-cased name is the key, and
    nothing when there is no such entry; there is no own property
    "__proto__"; every own key is in lower case.  The prototype is the
    last array assigned under "__proto__", [Object.prototype] when there
    is none.  What a lookup finds on the prototype is not an own
    property and is not described here. *)
Theorem normalizeHeaders_lookup (hs : list (string * Http.header_value)) (key : string) :
  (key <> "__proto__" ->
   Http.own (Http.normalizeHeaders hs) !! key
     = snd <$> last (filter (fun entry => Http.toLowerCase (fst entry) = key) hs)) /\
  Http.own (Http.normalizeHeaders hs) !! "__proto__" = None /\
  (is_Some (Http.own (Http.normalizeHeaders hs) !! key) -> Http.toLowerCase key = key) /\
  Http.proto (Http.normalizeHeaders hs)
    = last (omap (fun entry =>
                    if String.eqb (Http.toLowerCase (fst entry)) "__proto__"
                    then match snd entry with
                         | Http.HArray a => Some a
                         | _ => None
                         end
                    else None) hs).
Proof.
  split; [apply normalizeHeaders_own_last|]. split; [apply normalizeHeaders_own_no_proto|].
  split.
  - intros Hsome.
    destruct (String.eqb_spec key "__proto__") as [-> | Hkey].
    { rewrite normalizeHeaders_own_no_proto in Hsome. now destruct Hsome. }
    rewrite (normalizeHeaders_own_last _ _ Hkey) in Hsome. destruct Hsome as [v Hv].
    destruct (last _) as [entry|] eqn:Hlast; [|discriminate].
    apply last_Some in Hlast as (l & Hl).
    assert (Hin : entry ∈ filter (fun e => Http.toLowerCase (fst e) = key) hs).
    { rewrite Hl. apply elem_of_app. right. apply elem_of_cons. now left. }
    apply list_elem_of_filter in Hin as [<- _].
    apply toLowerCase_idempotent.
  - induction hs as [|[name v] hs IH] using rev_ind; [reflexivity|].
    rewrite normalizeHeaders_snoc, omap_app, last_app. cbn [omap list_omap fst snd].
    unfold Http.assign.
    destruct (String.eqb (Http.toLowerCase name) "__proto__").
    + destruct v; cbn; try exact IH. reflexivity.
    + cbn. exact IH.
Qed.

Section StartupCoverage.
Import Startup.
Variable Number_parseInt : string -> number.
Variable connect_resolves : transport_kind -> bool.
Variable httpServer_listen_outcome : number -> string -> listen_outcome.

(** A loop that was not interrupted has called [server.tool] on every
    tool. *)
Lemma register_all_completed (tools : list ToolDefinition) (registered final : list string)
    (calls : list call) :
  register_all tools registered = (calls, Some final) ->
  calls = server_tool <$> tools.
Proof.
  revert registered calls. induction tools as [|t tools IH]; intros registered calls;
    cbn [register_all].
  - now intros [= <- _].
  - destruct (existsb _ registered); [discriminate|].
    destruct (register_all tools (registered ++ [name t])) as [calls' r] eqn:Hrest.
    intros [= <- ->]. cbn. f_equal. now apply (IH _ _ Hrest).
Qed.

Lemma main_opens_with_connect (p : process) :
  exists k rest,
    main Number_parseInt connect_resolves httpServer_listen_outcome p
      = server_connect k :: rest /\
    Forall (fun c => is_server_tool c = false /\ is_server_connect c = false) rest.
Proof.
  unfold main, after_listen.
  destruct (useStdio p), (connect_resolves _);
    try destruct (httpServer_listen_outcome _ _);
    eexists _, _; (split; [reflexivity|]); repeat constructor.
Qed.

(** A transport is connected only once the registration loop has run to
    its end.  If [server.connect] is called at all, the calls of the
    program are, in this order: [server.tool] on every tool of
    [allTools], the line that counts and names them, that call of
    [server.connect], and after it no registration and no other
    connect. *)
Theorem connect_implies_all_registered (tools : list ToolDefinition) (p : process)
    (k : transport_kind) :
  server_connect k ∈ program Number_parseInt connect_resolves httpServer_listen_outcome tools p ->
  exists after,
    program Number_parseInt connect_resolves httpServer_listen_outcome tools p
      = (server_tool <$> tools)
        ++ console_log_registered (length tools) (Json.join ", " (map name tools))
        :: server_connect k :: after /\
    Forall (fun c => is_server_tool c = false /\ is_server_connect c = false) after.
Proof.
  unfold program.
  destruct (register_all_calls tools []) as (n & Hn).
  destruct (register_all tools []) as [calls [registered|]] eqn:Hreg.
  - rewrite (register_all_completed _ _ _ _ Hreg).
    destruct (main_opens_with_connect p) as (k' & rest & -> & Hrest).
    intros Hin. exists rest. split; [|assumption].
    apply elem_of_app in Hin as [Hin | Hin].
    { apply list_elem_of_fmap in Hin as (t & Ht & _). discriminate Ht. }
    apply elem_of_cons in Hin as [Hin | Hin]; [discriminate Hin|].
    apply elem_of_cons in Hin as [[= ->] | Hin]; [reflexivity|].
    rewrite Forall_forall in Hrest. destruct (Hrest _ Hin) as [_ Hno]. discriminate Hno.
  - cbn [fst] in Hn. subst calls. intros Hin.
    apply list_elem_of_fmap in Hin as (t & Ht & _). discriminate Ht.
Qed.

End StartupCoverage.

(** ** The added properties on the requests of the examples *)

Lemma success_leaves_response_to_transport_witness :
  Http.res (@Http.serve Sample.imports
              (Sample.post "/mcp" [("Token", Http.HString "abc123")]
                 (Json.stringify Sample.tools_list))).1
    = Sample.answered Http.fresh_response "event: message".
Proof.
  apply (proj1 (@success_leaves_response_to_transport Sample.imports
                  (Sample.post "/mcp" [("Token", Http.HString "abc123")]
                     (Json.stringify Sample.tools_list))
                  "abc123" (Sample.answered Http.fresh_response "event: message")
                  (or_intror eq_refl) eq_refl eq_refl (fun _ => eq_refl) eq_refl)).
Defined.

Lemma dispatched_at_most_once_witness :
  length (filter (fun e => Http.is_dispatch e = true)
            (Http.trace (@Http.serve Sample.imports
               (Sample.post "/mcp" [("Token", Http.HString "abc123")]
                  (Json.stringify Sample.failing_call))).1)) = 1%nat.
Proof.
  apply (proj2 (@dispatched_at_most_once Sample.imports
                  (Sample.post "/mcp" [("Token", Http.HString "abc123")]
                     (Json.stringify Sample.failing_call)))
           (or_intror eq_refl) eq_refl (fun _ => eq_refl)).
Defined.

Lemma body_buffered_before_dispatch_witness :
  exists before after,
    Http.trace (@Http.serve Sample.imports
                  (Sample.post "/mcp" [("Token", Http.HString "abc123")] "not json")).1
      = before ++ Http.HandleRequest "abc123"
                    (@Http.payload_of Sample.imports
                       (@Http.body_text Sample.imports
                          (Sample.post "/mcp" [("Token", Http.HString "abc123")] "not json")))
                  :: after /\
    filter (fun e => Http.is_read e = true) before
      = Http.ReadChunk <$> Http.stream_chunks
          (Http.stream (Sample.post "/mcp" [("Token", Http.HString "abc123")] "not json")) /\
    filter (fun e => Http.is_read e = true) after = [].
Proof.
  apply (@body_buffered_before_dispatch Sample.imports
           (Sample.post "/mcp" [("Token", Http.HString "abc123")] "not json")
           "abc123" (or_intror eq_refl) eq_refl eq_refl eq_refl eq_refl).
Defined.

Lemma failed_stream_skips_dispatch_witness :
  Http.res (@Http.serve Sample.imports
              {| Http.url := Some "/mcp"; Http.method := Some "POST";
                 Http.headers := [("token", Http.HString "abc123")];
                 Http.stream := Http.StreamChunk (list_byte_of_string "{")
                                  (Http.StreamError (Http.ThrownError "aborted")) |}).1
    = {| Http.progress := Http.Ended; Http.statusCode := 500;
         Http.responseHeaders := Http.json_content_type;
         Http.written := [Json.stringify (Json.error_envelope (-32603)
                            (Http.message_of (Http.ThrownError "aborted")))] |}.
Proof.
  apply (proj2 (proj2 (@failed_stream_skips_dispatch Sample.imports
           {| Http.url := Some "/mcp"; Http.method := Some "POST";
              Http.headers := [("token", Http.HString "abc123")];
              Http.stream := Http.StreamChunk (list_byte_of_string "{")
                               (Http.StreamError (Http.ThrownError "aborted")) |}
           "abc123" (Http.ThrownError "aborted")
           (or_intror eq_refl) eq_refl eq_refl eq_refl eq_refl))).
Defined.

Lemma undecodable_body_passed_raw_witness :
  Http.HandleRequest "abc123"
      (Some (Json.JString
               (@Http.body_text Sample.imports
                  (Sample.post "/mcp" [("Token", Http.HString "abc123")] "not json"))))
    ∈ Http.trace (@Http.serve Sample.imports
                    (Sample.post "/mcp" [("Token", Http.HString "abc123")] "not json")).1.
Proof.
  apply (@undecodable_body_passed_raw Sample.imports
           (Sample.post "/mcp" [("Token", Http.HString "abc123")] "not json")
           "abc123" (Http.ThrownError "Unexpected token in JSON")
           (or_intror eq_refl) eq_refl eq_refl eq_refl eq_refl eq_refl eq_refl).
Defined.

Lemma decodable_body_passed_decoded_witness :
  Http.HandleRequest "abc123" (Some Sample.tools_list)
    ∈ Http.trace (@Http.serve Sample.imports
                    (Sample.post "/mcp" [("Token", Http.HString "abc123")]
                       (Json.stringify Sample.tools_list))).1.
Proof.
  apply (@decodable_body_passed_decoded Sample.imports
           (Sample.post "/mcp" [("Token", Http.HString "abc123")]
              (Json.stringify Sample.tools_list))
           "abc123" Sample.tools_list
           (or_intror eq_refl) eq_refl eq_refl eq_refl eq_refl eq_refl eq_refl eq_refl).
Defined.

Lemma dispatch_under_own_credential_witness :
  Sample.token_header
    (Http.normalizeHeaders
       (Http.headers (Sample.get "/mcp" [("Token", Http.HString "abc123")])))
    = Some "abc123".
Proof.
  apply (@dispatch_under_own_credential Sample.imports
           (Sample.get "/mcp" [("Token", Http.HString "abc123")]) "abc123" None).
  in_concrete_trace.
Defined.

Lemma method_line_origin_witness :
  Http.is_POST (Http.method (Sample.post "/mcp" [("Token", Http.HString "abc123")]
                               (Json.stringify Sample.tools_list))) = true /\
  Http.stream_error (Http.stream (Sample.post "/mcp" [("Token", Http.HString "abc123")]
                                    (Json.stringify Sample.tools_list))) = None /\
  exists props,
    Sample.parse_known
      (@Http.body_text Sample.imports
         (Sample.post "/mcp" [("Token", Http.HString "abc123")]
            (Json.stringify Sample.tools_list)))
      = Http.Returned (Json.JObject props) /\
    Json.own_property "method" props = Some (Json.JString "tools/list") /\
    Json.toString_throws (Json.JString "tools/list") = false.
Proof.
  apply (@method_line_origin Sample.imports
           (Sample.post "/mcp" [("Token", Http.HString "abc123")]
              (Json.stringify Sample.tools_list))
           (Json.JString "tools/list")).
  in_concrete_trace.
Defined.

Lemma rejected_requests_print_nothing_witness :
  Forall (fun e => Http.is_console e = false)
    (Http.trace (@Http.serve Sample.imports (Sample.get "/favicon.ico" [])).1).
Proof.
  apply Forall_forall. intros e Hin.
  destruct e as [| | | | |l]; try reflexivity.
  exfalso.
  apply (@rejected_requests_print_nothing Sample.imports
           (Sample.get "/favicon.ico" [])) with (l := l); [|exact Hin].
  left. intros [Heq | Heq]; vm_compute in Heq; discriminate Heq.
Defined.

Lemma missing_url_routed_as_root_witness :
  Http.request_url {| Http.url := None; Http.method := Some "GET";
                      Http.headers := []; Http.stream := Http.StreamEnd |} = "/" /\
  Http.ExtractToken (Http.normalizeHeaders [])
    ∈ Http.trace (@Http.serve Sample.imports
                    {| Http.url := None; Http.method := Some "GET";
                       Http.headers := []; Http.stream := Http.StreamEnd |}).1 /\
  Http.ResWriteHead 404
    ∉ Http.trace (@Http.serve Sample.imports
                    {| Http.url := None; Http.method := Some "GET";
                       Http.headers := []; Http.stream := Http.StreamEnd |}).1.
Proof.
  apply (@missing_url_routed_as_root Sample.imports
           {| Http.url := None; Http.method := Some "GET";
              Http.headers := []; Http.stream := Http.StreamEnd |}).
  left. reflexivity.
Defined.

Lemma healthcheck_exits_1_witness :
  Http.statusCode (Http.res (@Http.serve Sample.imports
     (Healthcheck.request [("host", Http.HString "localhost:8888");
                           ("connection", Http.HString "keep-alive")])).1) = 400 /\
  Healthcheck.exit_code (Http.statusCode (Http.res (@Http.serve Sample.imports
     (Healthcheck.request [("host", Http.HString "localhost:8888");
                           ("connection", Http.HString "keep-alive")])).1)) = 1.
Proof.
  apply (@healthcheck_exits_1 Sample.imports
           [("host", Http.HString "localhost:8888");
            ("connection", Http.HString "keep-alive")]).
  reflexivity.
Defined.

Lemma handle_failure_origin_witness :
  (Http.request_url (Sample.post "/mcp" [("Token", Http.HString "abc123")]
                       (Json.stringify Sample.failing_call)) = "/" \/
   Http.request_url (Sample.post "/mcp" [("Token", Http.HString "abc123")]
                       (Json.stringify Sample.failing_call)) = "/mcp") /\
  exists token,
    Sample.token_header
      (Http.normalizeHeaders
         (Http.headers (Sample.post "/mcp" [("Token", Http.HString "abc123")]
                          (Json.stringify Sample.failing_call)))) = Some token /\
    Http.nonempty token = true /\
    ((Http.is_POST (Http.method (Sample.post "/mcp" [("Token", Http.HString "abc123")]
                                   (Json.stringify Sample.failing_call))) = true /\
      Http.stream_error (Http.stream (Sample.post "/mcp" [("Token", Http.HString "abc123")]
                                        (Json.stringify Sample.failing_call)))
        = Some (Http.ThrownError "tool failed") /\
      Http.fresh_response = Http.fresh_response) \/
     (exists parsedBody,
        Sample.transport (Sample.post "/mcp" [("Token", Http.HString "abc123")]
                            (Json.stringify Sample.failing_call))
          parsedBody token Http.fresh_response
        = (Http.fresh_response, Http.Threw (Http.ThrownError "tool failed")))).
Proof.
  assert (Hthrow : { w | @Http.handle Sample.imports
                           (Sample.post "/mcp" [("Token", Http.HString "abc123")]
                              (Json.stringify Sample.failing_call)) Http.initial_world
                           = (w, Http.Threw (Http.ThrownError "tool failed"))
                         /\ Http.res w = Http.fresh_response }).
  { eexists. split; [vm_compute; reflexivity | reflexivity]. }
  destruct Hthrow as (w & Hthrow & Hres).
  pose proof (@handle_failure_origin Sample.imports _ w _ Hthrow) as Horigin.
  rewrite Hres in Horigin. exact Horigin.
Defined.

Lemma connect_implies_all_registered_witness :
  exists after,
    Startup.program Sample.parse_digits (fun _ => true) Sample.listen_checked
       (Startup.allTools [Startup.mkTool "getNowPlaying" "reads"]
          [Startup.mkTool "playMusic" "plays"] [Startup.mkTool "getAlbums" "albums"])
       (Startup.mkProcess ∅ ["node"; "build/index.js"])
      = (Startup.server_tool
           <$> Startup.allTools [Startup.mkTool "getNowPlaying" "reads"]
                 [Startup.mkTool "playMusic" "plays"] [Startup.mkTool "getAlbums" "albums"])
        ++ Startup.console_log_registered
             (length (Startup.allTools [Startup.mkTool "getNowPlaying" "reads"]
                        [Startup.mkTool "playMusic" "plays"]
                        [Startup.mkTool "getAlbums" "albums"]))
             (Json.join ", "
                (map Startup.name
                   (Startup.allTools [Startup.mkTool "getNowPlaying" "reads"]
                      [Startup.mkTool "playMusic" "plays"]
                      [Startup.mkTool "getAlbums" "albums"])))
        :: Startup.server_connect Startup.StreamableHTTPServerTransport :: after /\
    Forall (fun c => Startup.is_server_tool c = false /\ Startup.is_server_connect c = false)
      after.
Proof.
  apply (connect_implies_all_registered Sample.parse_digits (fun _ => true)
           Sample.listen_checked
           (Startup.allTools [Startup.mkTool "getNowPlaying" "reads"]
              [Startup.mkTool "playMusic" "plays"] [Startup.mkTool "getAlbums" "albums"])
           (Startup.mkProcess ∅ ["node"; "build/index.js"])
           Startup.StreamableHTTPServerTransport).
  apply list_elem_of_In. vm_compute. do 4 right. left. reflexivity.
Defined.
